(** * MicroBitCompass: calibration state machine of the MAG3110 driver

    A shallow embedding of [source/MicroBitCompass.cpp].  Every method of
    the class becomes a function on an explicit [State]; the state holds
    the members of the compass object together with the parts of the
    device the methods touch: the I2C bus with the magnetometer behind
    it, the data-ready pin, the system tick counter and the events that
    were raised. *)

From Stdlib Require Import ZArith List Bool Lia Floats.
Import ListNotations.

Local Open Scope Z_scope.

(** ** Fixed-width integers

    The target is a 32-bit ARM core: [int] and [unsigned long] have 32
    bits, [uint8_t], [int8_t] and [int16_t] are exact-width.  Values are
    kept in [Z]; each conversion the C++ code performs is written out. *)

Definition to_u8 (v : Z) : Z := v mod 256.

Definition to_s8 (v : Z) : Z :=
  let w := v mod 256 in if w <? 128 then w else w - 256.

Definition to_s16 (v : Z) : Z :=
  let w := v mod 65536 in if w <? 32768 then w else w - 65536.

Definition to_u16 (v : Z) : Z := v mod 65536.

Definition to_u32 (v : Z) : Z := v mod 2 ^ 32.

Definition in_s16 (v : Z) : Prop := -32768 <= v <= 32767.

(** ** Constants of the headers

    [MicroBitCompass.h] and [MicroBit.h] are not part of the sources at
    hand, so the register map, the status flags, the event codes and the
    return codes they define are taken as parameters. *)

Class Header : Type := {
  MAG_OUT_X_MSB : Z;
  MAG_OUT_Y_MSB : Z;
  MAG_OUT_Z_MSB : Z;
  MAG_WHOAMI : Z;
  MAG_OFF_X_MSB : Z;
  MAG_OFF_X_LSB : Z;
  MAG_OFF_Y_MSB : Z;
  MAG_OFF_Y_LSB : Z;
  MAG_OFF_Z_MSB : Z;
  MAG_OFF_Z_LSB : Z;
  MAG_CTRL_REG1 : Z;
  MAG_CTRL_REG2 : Z;
  MICROBIT_COMPASS_STATUS_CALIBRATED : Z;
  MICROBIT_COMPASS_STATUS_CALIBRATING : Z;
  MICROBIT_COMPASS_CALIBRATE_PERIOD : Z;
  MICROBIT_COMPASS_IS_CALIBRATING : Z;
  MICROBIT_COMPASS_CALIBRATE_REQUIRED : Z;
  MICROBIT_COMPASS_EVT_CAL_REQUIRED : Z;
  MICROBIT_COMPASS_EVT_CAL_START : Z;
  MICROBIT_COMPASS_EVT_CAL_END : Z;
  MICROBIT_FLAG_COMPASS_RUNNING : Z
}.

(** ** Data model *)

(** [CompassSample]: one reading, three [int16_t] axes. *)
Record CompassSample : Type := mkSample { x : Z; y : Z; z : Z }.

(** Every axis of a sample fits its [int16_t] member. *)
Definition sample_ok (v : CompassSample) : Prop :=
  in_s16 (x v) /\ in_s16 (y v) /\ in_s16 (z v).

(** The members of a [MicroBitCompass] object. *)
Record MicroBitCompass : Type := mkCompass {
  id : Z;
  address : Z;
  eventStartTime : Z;
  minSample : CompassSample;
  maxSample : CompassSample;
  average : CompassSample;
  sample : CompassSample;
  status : Z
}.

(** One transfer on the I2C bus, as handed to [uBit.i2c]. *)
Inductive Transfer : Type :=
| I2CWrite (addr : Z) (data : list Z) (repeated : bool)
| I2CRead (addr : Z) (length : nat).

(** The device around the compass object.  The magnetometer is a file of
    byte registers addressed through a pointer register: the first byte
    of a write sets the pointer, every further byte written or read goes
    to the register under the pointer and advances it. *)
Record Device : Type := mkDevice {
  registers : Z -> Z;
  pointer : Z;
  transfers : list Transfer;
  events : list (Z * Z);
  flags : Z;
  ticks : Z;
  int1 : bool
}.

Record State : Type := mkState { compass : MicroBitCompass; uBit : Device }.

(** Setters for the members the methods assign. *)

Definition set_eventStartTime (v : Z) (c : MicroBitCompass) : MicroBitCompass :=
  mkCompass (id c) (address c) v (minSample c) (maxSample c) (average c)
            (sample c) (status c).

Definition set_minSample (v : CompassSample) (c : MicroBitCompass) : MicroBitCompass :=
  mkCompass (id c) (address c) (eventStartTime c) v (maxSample c) (average c)
            (sample c) (status c).

Definition set_maxSample (v : CompassSample) (c : MicroBitCompass) : MicroBitCompass :=
  mkCompass (id c) (address c) (eventStartTime c) (minSample c) v (average c)
            (sample c) (status c).

Definition set_average (v : CompassSample) (c : MicroBitCompass) : MicroBitCompass :=
  mkCompass (id c) (address c) (eventStartTime c) (minSample c) (maxSample c) v
            (sample c) (status c).

Definition set_sample (v : CompassSample) (c : MicroBitCompass) : MicroBitCompass :=
  mkCompass (id c) (address c) (eventStartTime c) (minSample c) (maxSample c)
            (average c) v (status c).

Definition set_status (v : Z) (c : MicroBitCompass) : MicroBitCompass :=
  mkCompass (id c) (address c) (eventStartTime c) (minSample c) (maxSample c)
            (average c) (sample c) v.

Definition on_compass (f : MicroBitCompass -> MicroBitCompass) (s : State) : State :=
  mkState (f (compass s)) (uBit s).

Definition on_uBit (f : Device -> Device) (s : State) : State :=
  mkState (compass s) (f (uBit s)).

(** ** The I2C bus *)

Definition store (r v : Z) (m : Z -> Z) : Z -> Z :=
  fun a => if a =? r then v else m a.

(** Bytes written after the register address land in consecutive
    registers. *)
Fixpoint store_run (r : Z) (vs : list Z) (m : Z -> Z) : Z -> Z :=
  match vs with
  | [] => m
  | v :: vs' => store_run (to_u8 (r + 1)) vs' (store r v m)
  end.

Fixpoint load_run (r : Z) (n : nat) (m : Z -> Z) : list Z :=
  match n with
  | O => []
  | S n' => m r :: load_run (to_u8 (r + 1)) n' m
  end.

(** [uBit.i2c.write(address, data, length, repeated)] *)
Definition i2c_write (addr : Z) (data : list Z) (repeated : bool) (d : Device) : Device :=
  let log := transfers d ++ [I2CWrite addr data repeated] in
  match data with
  | [] => mkDevice (registers d) (pointer d) log (events d) (flags d) (ticks d) (int1 d)
  | r :: vs =>
      mkDevice (store_run r vs (registers d))
               (to_u8 (r + Z.of_nat (List.length vs)))
               log (events d) (flags d) (ticks d) (int1 d)
  end.

(** [uBit.i2c.read(address, buffer, length)]: the bytes read, and the
    device afterwards. *)
Definition i2c_read (addr : Z) (n : nat) (d : Device) : list Z * Device :=
  (load_run (pointer d) n (registers d),
   mkDevice (registers d) (to_u8 (pointer d + Z.of_nat n))
            (transfers d ++ [I2CRead addr n]) (events d) (flags d) (ticks d) (int1 d)).

(** [MicroBitEvent(source, value)]: creating the event fires it. *)
Definition MicroBitEvent (source value : Z) (d : Device) : Device :=
  mkDevice (registers d) (pointer d) (transfers d) (events d ++ [(source, value)])
           (flags d) (ticks d) (int1 d).

Definition set_flags (v : Z) (d : Device) : Device :=
  mkDevice (registers d) (pointer d) (transfers d) (events d) v (ticks d) (int1 d).

(** What happens outside the driver between two calls: the clock moves,
    the data-ready line changes, the sensor refreshes its registers. *)
Definition environment (t : Z) (ready : bool) (regs : Z -> Z) (d : Device) : Device :=
  mkDevice regs (pointer d) (transfers d) (events d) (flags d) t ready.

(** ** The methods of [MicroBitCompass] *)

Section Driver.

Context {hdr : Header}.

(** Lines 140 to 144 of [heading()] run in floating point ([atan2] of the
    C library, a [float] bearing, the macro [PI]).  They read nothing but
    the two integer differences, so they are kept as one function of
    those: [bearing_to_heading dy dx] stands for
    [(int)(360.0 - bearing)].  [heading_degrees] below is that function
    in IEEE arithmetic. *)
Variable bearing_to_heading : Z -> Z -> Z.

(** *** Register access *)

Definition writeCommand (reg value : Z) (s : State) : State :=
  on_uBit (i2c_write (address (compass s)) [to_u8 reg; to_u8 value] false) s.

Definition readCommand (reg : Z) (length : nat) (s : State) : list Z * State :=
  let d1 := i2c_write (address (compass s)) [to_u8 reg] true (uBit s) in
  let (buffer, d2) := i2c_read (address (compass s)) length d1 in
  (map to_u8 buffer, mkState (compass s) d2).

Definition read16 (reg : Z) (s : State) : Z * State :=
  let d1 := i2c_write (address (compass s)) [to_u8 reg] false (uBit s) in
  let (buffer, d2) := i2c_read (address (compass s)) 2 d1 in
  let cmd0 := to_u8 (nth 0 buffer 0) in
  let cmd1 := to_u8 (nth 1 buffer 0) in
  (to_s16 (Z.lor cmd1 (Z.shiftl cmd0 8)), mkState (compass s) d2).

Definition read8 (reg : Z) (s : State) : Z * State :=
  let (buffer, s') := readCommand reg 1 s in
  (to_s8 (nth 0 buffer 0), s').

(** *** Status queries *)

Definition isCalibrated (s : State) : Z :=
  Z.land (status (compass s)) MICROBIT_COMPASS_STATUS_CALIBRATED.

Definition isCalibrating (s : State) : Z :=
  Z.land (status (compass s)) MICROBIT_COMPASS_STATUS_CALIBRATING.

Definition isIdleCallbackNeeded (s : State) : Z :=
  if int1 (uBit s) then 1 else 0.

(** [status &= ~flag] and [status |= flag].  The member is declared in
    the absent header and taken to be a [uint8_t]; for flags that are
    bytes a wider member holds the same values. *)
Definition clear_flag (flag : Z) (c : MicroBitCompass) : MicroBitCompass :=
  set_status (to_u8 (Z.land (status c) (Z.lnot flag))) c.

Definition raise_flag (flag : Z) (c : MicroBitCompass) : MicroBitCompass :=
  set_status (to_u8 (Z.lor (status c) flag)) c.

(** *** Constructor

    [fresh] is the object before the body runs: [average] and [sample]
    are value-initialised.  [minSample] and [maxSample] are not touched
    by the constructor; the compass is a member of the global [uBit],
    whose storage is zeroed before any constructor runs.  The status
    starts from the literal [0x01]. *)

Definition zero_sample : CompassSample := mkSample 0 0 0.

Definition fresh (id address : Z) : MicroBitCompass :=
  mkCompass id address 0 zero_sample zero_sample zero_sample zero_sample 1.

Definition constructor (id address : Z) (d : Device) : State :=
  let s := mkState (fresh (to_u16 id) (to_u16 address)) d in
  let s := writeCommand MAG_CTRL_REG2 160 s in
  let s := writeCommand MAG_CTRL_REG1 97 s in
  let (ax, s) := read16 MAG_OFF_X_MSB s in
  let (ay, s) := read16 MAG_OFF_Y_MSB s in
  let (az, s) := read16 MAG_OFF_Z_MSB s in
  let s := on_compass (set_average (mkSample ax ay az)) s in
  let s :=
    if (ax =? 0) && (ay =? 0) && (az =? 0)
    then on_compass (clear_flag MICROBIT_COMPASS_STATUS_CALIBRATED) s
    else s in
  on_uBit (fun d => set_flags (to_u32 (Z.lor (flags d) MICROBIT_FLAG_COMPASS_RUNNING)) d) s.

(** *** Calibration *)

Definition calibrateStart (s : State) : State :=
  if negb (isCalibrating s =? 0) then s
  else
    let s := on_compass (raise_flag MICROBIT_COMPASS_STATUS_CALIBRATING) s in
    let s := on_compass (set_minSample (sample (compass s))) s in
    let s := on_compass (set_maxSample (sample (compass s))) s in
    on_uBit (MicroBitEvent (id (compass s)) MICROBIT_COMPASS_EVT_CAL_START) s.

Definition calibrateAsync (s : State) : State :=
  calibrateStart (on_compass (set_eventStartTime (ticks (uBit s))) s).

(** [(max + min) / 2] is computed in [int]; C++ division truncates toward
    zero, which is [Z.quot]; the result is stored in an [int16_t]. *)
Definition midpoint (hi lo : Z) : Z := to_s16 (Z.quot (hi + lo) 2).

Definition calibrateEnd (s : State) : State :=
  let mx := maxSample (compass s) in
  let mn := minSample (compass s) in
  let avg := mkSample (midpoint (x mx) (x mn)) (midpoint (y mx) (y mn))
                      (midpoint (z mx) (z mn)) in
  let s := on_compass (set_average avg) s in
  let s := on_compass (clear_flag MICROBIT_COMPASS_STATUS_CALIBRATING) s in
  let s := on_compass (raise_flag MICROBIT_COMPASS_STATUS_CALIBRATED) s in
  let s := writeCommand MAG_OFF_X_LSB (x avg) s in
  let s := writeCommand MAG_OFF_X_MSB (Z.shiftr (x avg) 8) s in
  let s := writeCommand MAG_OFF_Y_LSB (y avg) s in
  let s := writeCommand MAG_OFF_Y_MSB (Z.shiftr (y avg) 8) s in
  let s := writeCommand MAG_OFF_Z_LSB (z avg) s in
  let s := writeCommand MAG_OFF_Z_MSB (Z.shiftr (z avg) 8) s in
  on_uBit (MicroBitEvent (id (compass s)) MICROBIT_COMPASS_EVT_CAL_END) s.

Definition clearCalibration (s : State) : State :=
  let s := writeCommand MAG_OFF_X_LSB 0 s in
  let s := writeCommand MAG_OFF_X_MSB 0 s in
  let s := writeCommand MAG_OFF_Y_LSB 0 s in
  let s := writeCommand MAG_OFF_Y_MSB 0 s in
  let s := writeCommand MAG_OFF_Z_LSB 0 s in
  let s := writeCommand MAG_OFF_Z_MSB 0 s in
  on_compass (clear_flag MICROBIT_COMPASS_STATUS_CALIBRATED) s.

(** *** Sampling *)

(** [eventStartTime && ticks > eventStartTime + MICROBIT_COMPASS_CALIBRATE_PERIOD]
    on [unsigned long] operands. *)
Definition deadline_passed (s : State) : bool :=
  negb (eventStartTime (compass s) =? 0)
  && (to_u32 (eventStartTime (compass s) + MICROBIT_COMPASS_CALIBRATE_PERIOD)
      <? ticks (uBit s)).

Definition idleTick (s : State) : State :=
  if int1 (uBit s) then
    let (sx, s) := read16 MAG_OUT_X_MSB s in
    let (sy, s) := read16 MAG_OUT_Y_MSB s in
    let (sz, s) := read16 MAG_OUT_Z_MSB s in
    let s := on_compass (set_sample (mkSample sx sy sz)) s in
    if negb (isCalibrating s =? 0) then
      let smp := sample (compass s) in
      let mn := minSample (compass s) in
      let s := on_compass (set_minSample
                 (mkSample (Z.min (x smp) (x mn)) (Z.min (y smp) (y mn))
                           (Z.min (z smp) (z mn)))) s in
      let mx := maxSample (compass s) in
      let s := on_compass (set_maxSample
                 (mkSample (Z.max (x smp) (x mx)) (Z.max (y smp) (y mx))
                           (Z.max (z smp) (z mx)))) s in
      if deadline_passed s then
        calibrateEnd (on_compass (set_eventStartTime 0) s)
      else s
    else s
  else s.

(** *** Heading and accessors *)

Definition heading (s : State) : Z * State :=
  if negb (isCalibrating s =? 0) then (MICROBIT_COMPASS_IS_CALIBRATING, s)
  else if isCalibrated s =? 0 then
    (MICROBIT_COMPASS_CALIBRATE_REQUIRED,
     on_uBit (MicroBitEvent (id (compass s)) MICROBIT_COMPASS_EVT_CAL_REQUIRED) s)
  else
    (bearing_to_heading (y (sample (compass s)) - y (average (compass s)))
                        (x (sample (compass s)) - x (average (compass s))),
     s).

Definition getX (s : State) : Z := x (sample (compass s)).
Definition getY (s : State) : Z := y (sample (compass s)).
Definition getZ (s : State) : Z := z (sample (compass s)).

Definition whoAmI (s : State) : Z * State :=
  let (buffer, s') := readCommand MAG_WHOAMI 1 s in
  (nth 0 buffer 0, s').

End Driver.

(** ** The degrees computed by [heading]

    Lines 140 to 144 of [heading()] in IEEE 754 arithmetic: [double] is
    binary64, the primitive [float] of Rocq; a C [float] is binary32 and
    is kept as the [double] of the same value.  [atan2] belongs to the C
    library and [PI] is a macro of the absent headers: both are
    parameters. *)

Class Math : Type := {
  atan2 : float -> float -> float;
  PI : float
}.

(** [(double) v] for an [int]: exact. *)
Definition double_of_int (v : Z) : float :=
  if v <? 0 then PrimFloat.opp (PrimFloat.of_uint63 (Uint63.of_Z (- v)))
  else PrimFloat.of_uint63 (Uint63.of_Z v).

(** [(float) f]: rounding to binary32 (24 bits of precision, exponents up
    to 128), to nearest with ties to even. *)
Definition float_of_double (f : float) : float :=
  match Prim2SF f with
  | S754_finite s m e => SF2Prim (binary_round 24 128 s m e)
  | _ => f
  end.

(** [(int) f]: the fraction is dropped.  The conversion is undefined in
    C++ for a NaN, an infinity or a value outside [int]; only finite
    values are given their integer part here. *)
Definition int_of_double (f : float) : Z :=
  match Prim2SF f with
  | S754_finite s m e =>
      let v := Z.shiftl (Z.pos m) e in if s then - v else v
  | _ => 0
  end.

(** The bearing: [atan2(dy, dx) * 180 / PI] stored in a [float], with 360
    added when it is negative. *)
Definition bearing {m : Math} (dy dx : Z) : float :=
  let b := float_of_double
             (PrimFloat.div
                (PrimFloat.mul (atan2 (double_of_int dy) (double_of_int dx))
                               (double_of_int 180))
                PI) in
  if PrimFloat.ltb b (float_of_double (double_of_int 0))
  then float_of_double (PrimFloat.add b 360%float)
  else b.

(** [(int) (360.0 - bearing)] *)
Definition heading_degrees {m : Math} (dy dx : Z) : Z :=
  int_of_double (PrimFloat.sub 360%float (bearing dy dx)).

(** ** Polling

    [idleTick] is called by the scheduler; between two calls the
    environment has moved on.  A [Poll] is what one call finds: the tick
    counter, the level of the data-ready line and the sensor's
    registers. *)

Record Poll : Type := mkPoll {
  poll_ticks : Z;
  poll_ready : bool;
  poll_registers : Z -> Z
}.

Definition poll {hdr : Header} (p : Poll) (s : State) : State :=
  idleTick (on_uBit (environment (poll_ticks p) (poll_ready p) (poll_registers p)) s).

Fixpoint polls {hdr : Header} (ps : list Poll) (s : State) : State :=
  match ps with
  | [] => s
  | p :: ps' => polls ps' (poll p s)
  end.

(** ** Conditions on the header constants *)

(** The two status flags are non-zero bytes with no bit in common. *)
Definition flags_wf {hdr : Header} : Prop :=
  0 < MICROBIT_COMPASS_STATUS_CALIBRATED < 256 /\
  0 < MICROBIT_COMPASS_STATUS_CALIBRATING < 256 /\
  Z.land MICROBIT_COMPASS_STATUS_CALIBRATED MICROBIT_COMPASS_STATUS_CALIBRATING = 0.

(** The constructor starts from the literal [0x01], "presumed
    calibrated": the literal carries the calibrated flag. *)
Definition literal_wf {hdr : Header} : Prop :=
  Z.land 1 MICROBIT_COMPASS_STATUS_CALIBRATED <> 0.


(** What holds from [calibrateAsync] at tick [T] until the calibration
    ends: the compass is calibrating and the deadline is [T]. *)
Definition waiting {hdr : Header} (T : Z) (s : State) : Prop :=
  isCalibrating s <> 0 /\ eventStartTime (compass s) = T.

(** The 16-bit value held by the register pair starting at [reg], most
    significant byte first. *)
Definition register16 (regs : Z -> Z) (reg : Z) : Z :=
  to_s16 (Z.lor (to_u8 (regs (to_u8 (to_u8 reg + 1))))
                (Z.shiftl (to_u8 (regs (to_u8 reg))) 8)).

(** The six command writes that store an offset, in bus order. *)
Definition offset_writes {hdr : Header} (addr : Z) (avg : CompassSample) : list Transfer :=
  [ I2CWrite addr [to_u8 MAG_OFF_X_LSB; to_u8 (x avg)] false;
    I2CWrite addr [to_u8 MAG_OFF_X_MSB; to_u8 (Z.shiftr (x avg) 8)] false;
    I2CWrite addr [to_u8 MAG_OFF_Y_LSB; to_u8 (y avg)] false;
    I2CWrite addr [to_u8 MAG_OFF_Y_MSB; to_u8 (Z.shiftr (y avg) 8)] false;
    I2CWrite addr [to_u8 MAG_OFF_Z_LSB; to_u8 (z avg)] false;
    I2CWrite addr [to_u8 MAG_OFF_Z_MSB; to_u8 (Z.shiftr (z avg) 8)] false ].

(** ** A concrete device

    The register addresses of the MAG3110 and one choice of the remaining
    constants, to run the driver on. *)

Definition mag3110 : Header := {|
  MAG_OUT_X_MSB := 1;
  MAG_OUT_Y_MSB := 3;
  MAG_OUT_Z_MSB := 5;
  MAG_WHOAMI := 7;
  MAG_OFF_X_MSB := 9;
  MAG_OFF_X_LSB := 10;
  MAG_OFF_Y_MSB := 11;
  MAG_OFF_Y_LSB := 12;
  MAG_OFF_Z_MSB := 13;
  MAG_OFF_Z_LSB := 14;
  MAG_CTRL_REG1 := 16;
  MAG_CTRL_REG2 := 17;
  MICROBIT_COMPASS_STATUS_CALIBRATED := 1;
  MICROBIT_COMPASS_STATUS_CALIBRATING := 2;
  MICROBIT_COMPASS_CALIBRATE_PERIOD := 10000;
  MICROBIT_COMPASS_IS_CALIBRATING := -1;
  MICROBIT_COMPASS_CALIBRATE_REQUIRED := -2;
  MICROBIT_COMPASS_EVT_CAL_REQUIRED := 1;
  MICROBIT_COMPASS_EVT_CAL_START := 2;
  MICROBIT_COMPASS_EVT_CAL_END := 3;
  MICROBIT_FLAG_COMPASS_RUNNING := 4
|}.

(** A sensor whose registers all read [v] except [r], which reads [w]. *)
Definition sensor (v r w : Z) : Z -> Z := store r w (fun _ => v).

Definition power_on (regs : Z -> Z) (t : Z) : Device :=
  mkDevice regs 0 [] [] 0 t false.

(** A compass that was never calibrated, and one with a stored offset. *)
Definition blank_compass : State := @constructor mag3110 27 14 (power_on (fun _ => 0) 5).
Definition stored_compass : State := @constructor mag3110 27 14 (power_on (sensor 0 10 100) 5).

(** The six offset registers. *)
Definition offset_registers {hdr : Header} : list Z :=
  [MAG_OFF_X_LSB; MAG_OFF_X_MSB; MAG_OFF_Y_LSB; MAG_OFF_Y_MSB;
   MAG_OFF_Z_LSB; MAG_OFF_Z_MSB].

(** A stand-in for the floating-point tail of [heading()], for running
    the integer part of the method. *)
Definition no_bearing (dy dx : Z) : Z := 0.

(** The doubles nearest to pi/2 and pi, which a C library conforming to
    Annex F of the C standard returns from [atan2] on the axes, and the
    double of the literal [3.14159265359]. *)
Definition half_pi : float := 0x1.921fb54442d18p+0%float.
Definition whole_pi : float := 0x1.921fb54442d18p+1%float.
Definition pi_literal : float := 0x1.921fb54442eeap+1%float.

(** A table in place of the C library, to run [heading] on: the values of
    [atan2] on the axes, and its value at (-1, 10000) to the last bit. *)
Definition atan2_table (fy fx : float) : float :=
  if PrimFloat.eqb fy 0%float then
    if PrimFloat.ltb fx 0%float then whole_pi else 0%float
  else if PrimFloat.eqb fx 0%float then
    if PrimFloat.ltb fy 0%float then PrimFloat.opp half_pi else half_pi
  else if PrimFloat.eqb fy (-1)%float && PrimFloat.eqb fx 10000%float
    then (-0x1.a36e2e9a4f662p-14)%float
  else nan.

Definition libm : Math := {| atan2 := atan2_table; PI := pi_literal |}.

(** A compass calibrated by hand to the offset (0, 0, 0), and the same
    compass after reading a sample. *)
Definition centred_compass : State :=
  @calibrateEnd mag3110
    (@polls mag3110 [mkPoll 6 true (sensor 0 2 5); mkPoll 7 true (sensor 255 2 251)]
       (@calibrateStart mag3110
          (@constructor mag3110 27 14 (power_on (sensor 0 2 0) 5)))).

Definition centred_reading (regs : Z -> Z) : State :=
  @poll mag3110 (mkPoll 8 true regs) centred_compass.

(** ** Samples and sessions *)

Definition sample_le (a b : CompassSample) : Prop :=
  x a <= x b /\ y a <= y b /\ z a <= z b.

Definition sample_min (a b : CompassSample) : CompassSample :=
  mkSample (Z.min (x a) (x b)) (Z.min (y a) (y b)) (Z.min (z a) (z b)).

Definition sample_max (a b : CompassSample) : CompassSample :=
  mkSample (Z.max (x a) (x b)) (Z.max (y a) (y b)) (Z.max (z a) (z b)).

(** The sample held by the three data register pairs. *)
Definition reading {hdr : Header} (regs : Z -> Z) : CompassSample :=
  mkSample (register16 regs MAG_OUT_X_MSB) (register16 regs MAG_OUT_Y_MSB)
           (register16 regs MAG_OUT_Z_MSB).

(** The samples a run of polls takes in: one for each poll that finds the
    data-ready line high. *)
Fixpoint readings {hdr : Header} (ps : list Poll) : list CompassSample :=
  match ps with
  | [] => []
  | p :: ps' =>
      if poll_ready p then reading (poll_registers p) :: readings ps'
      else readings ps'
  end.

(** The extents after widening them by a list of samples. *)
Definition widen_min (vs : list CompassSample) (start : CompassSample) : CompassSample :=
  fold_left (fun acc v => sample_min v acc) vs start.

Definition widen_max (vs : list CompassSample) (start : CompassSample) : CompassSample :=
  fold_left (fun acc v => sample_max v acc) vs start.

(** A poll that cannot end a calibration whose deadline member is [T]:
    no data is ready, or no deadline is set, or the tick counter has not
    gone past the deadline as [idleTick] computes it. *)
Definition quiet {hdr : Header} (T : Z) (q : Poll) : Prop :=
  poll_ready q = false \/ T = 0 \/
  poll_ticks q <= to_u32 (T + MICROBIT_COMPASS_CALIBRATE_PERIOD).

(** The members of the compass object that hold samples stay within
    [int16_t], and the extents are ordered. *)
Definition samples_wf (c : MicroBitCompass) : Prop :=
  sample_ok (sample c) /\ sample_ok (average c) /\
  sample_ok (minSample c) /\ sample_ok (maxSample c) /\
  sample_le (minSample c) (maxSample c).

(** The register map as the driver relies on it: the registers are bytes,
    each offset pair has its low byte right after its high byte, the
    three pairs do not overlap, and the control registers are none of
    the offset registers. *)
Definition register_map_wf {hdr : Header} : Prop :=
  (0 <= MAG_OFF_X_MSB /\ MAG_OFF_X_LSB = MAG_OFF_X_MSB + 1 /\ MAG_OFF_X_LSB < 256) /\
  (0 <= MAG_OFF_Y_MSB /\ MAG_OFF_Y_LSB = MAG_OFF_Y_MSB + 1 /\ MAG_OFF_Y_LSB < 256) /\
  (0 <= MAG_OFF_Z_MSB /\ MAG_OFF_Z_LSB = MAG_OFF_Z_MSB + 1 /\ MAG_OFF_Z_LSB < 256) /\
  NoDup offset_registers /\
  (0 <= MAG_CTRL_REG1 < 256 /\ ~ In MAG_CTRL_REG1 offset_registers) /\
  (0 <= MAG_CTRL_REG2 < 256 /\ ~ In MAG_CTRL_REG2 offset_registers).

(** A restart: the object is constructed again over the device as it
    is. *)
Definition restart {hdr : Header} (s : State) : State :=
  constructor (id (compass s)) (address (compass s)) (uBit s).

(** ** Runs

    What a program does with the compass, one step at a time: time
    passing outside the driver, or a call of one of the methods. *)

Inductive Call : Type :=
| Elapse (p : Poll)
| CallIdleTick
| CallCalibrateStart
| CallCalibrateAsync
| CallCalibrateEnd
| CallClearCalibration
| CallHeading
| CallWhoAmI.

Definition call {hdr : Header} (bearing_to_heading : Z -> Z -> Z)
    (c : Call) (s : State) : State :=
  match c with
  | Elapse p =>
      on_uBit (environment (poll_ticks p) (poll_ready p) (poll_registers p)) s
  | CallIdleTick => idleTick s
  | CallCalibrateStart => calibrateStart s
  | CallCalibrateAsync => calibrateAsync s
  | CallCalibrateEnd => calibrateEnd s
  | CallClearCalibration => clearCalibration s
  | CallHeading => snd (heading bearing_to_heading s)
  | CallWhoAmI => snd (whoAmI s)
  end.

Fixpoint calls {hdr : Header} (bearing_to_heading : Z -> Z -> Z)
    (cs : list Call) (s : State) : State :=
  match cs with
  | [] => s
  | c :: cs' => calls bearing_to_heading cs' (call bearing_to_heading c s)
  end.

(** The events the driver raises. *)
Definition compass_event {hdr : Header} (source : Z) (e : Z * Z) : Prop :=
  fst e = source /\
  (snd e = MICROBIT_COMPASS_EVT_CAL_REQUIRED \/
   snd e = MICROBIT_COMPASS_EVT_CAL_START \/
   snd e = MICROBIT_COMPASS_EVT_CAL_END).

(** * Properties *)

(** ** Bits of the status byte *)

Lemma testbit_to_u8 (v n : Z) :
  0 <= n -> Z.testbit (to_u8 v) n = (n <? 8) && Z.testbit v n.
Proof.
  intros Hn. unfold to_u8. change 256 with (2 ^ 8).
  destruct (Z.ltb_spec n 8) as [Hlt | Hge].
  - now rewrite Z.mod_pow2_bits_low.
  - now rewrite Z.mod_pow2_bits_high by lia.
Qed.

Lemma testbit_byte_high (v n : Z) :
  0 <= v < 256 -> 8 <= n -> Z.testbit v n = false.
Proof.
  intros Hv Hn. rewrite <- (Z.mod_small v (2 ^ 8)) by (change (2 ^ 8) with 256; lia).
  apply Z.mod_pow2_bits_high. lia.
Qed.

Lemma testbit_disjoint (f g n : Z) :
  Z.land f g = 0 -> Z.testbit f n = true -> Z.testbit g n = false.
Proof.
  intros Hfg Hf.
  assert (Hn : Z.testbit (Z.land f g) n = false) by (rewrite Hfg; apply Z.bits_0).
  rewrite Z.land_spec, Hf in Hn. exact Hn.
Qed.

(** Setting a flag sets it. *)
Lemma raise_reads_set (st f : Z) :
  0 <= f < 256 -> Z.land (to_u8 (Z.lor st f)) f = f.
Proof.
  intros Hf. apply Z.bits_inj'. intros n Hn.
  rewrite Z.land_spec, testbit_to_u8, Z.lor_spec by exact Hn.
  destruct (Z.ltb_spec n 8) as [Hlt | Hge].
  - destruct (Z.testbit st n), (Z.testbit f n); reflexivity.
  - rewrite (testbit_byte_high f n) by assumption. now rewrite andb_false_r.
Qed.

(** Clearing a flag clears it. *)
Lemma clear_reads_clear (st f : Z) :
  Z.land (to_u8 (Z.land st (Z.lnot f))) f = 0.
Proof.
  apply Z.bits_inj'. intros n Hn.
  rewrite Z.land_spec, testbit_to_u8, Z.land_spec, Z.lnot_spec, Z.bits_0 by exact Hn.
  destruct (n <? 8), (Z.testbit st n), (Z.testbit f n); reflexivity.
Qed.

(** Setting or clearing one flag leaves a disjoint flag as it was. *)
Lemma raise_keeps_other (st f g : Z) :
  0 <= g < 256 -> Z.land f g = 0 ->
  Z.land (to_u8 (Z.lor st f)) g = Z.land st g.
Proof.
  intros Hg Hfg. apply Z.bits_inj'. intros n Hn.
  rewrite !Z.land_spec, testbit_to_u8, Z.lor_spec by exact Hn.
  destruct (Z.ltb_spec n 8) as [Hlt | Hge].
  - destruct (Z.testbit f n) eqn:Ef.
    + rewrite (testbit_disjoint f g n Hfg Ef). now rewrite !andb_false_r.
    + now rewrite orb_false_r.
  - rewrite (testbit_byte_high g n) by assumption. now rewrite !andb_false_r.
Qed.

Lemma clear_keeps_other (st f g : Z) :
  0 <= g < 256 -> Z.land f g = 0 ->
  Z.land (to_u8 (Z.land st (Z.lnot f))) g = Z.land st g.
Proof.
  intros Hg Hfg. apply Z.bits_inj'. intros n Hn.
  rewrite !Z.land_spec, testbit_to_u8, Z.land_spec, Z.lnot_spec by exact Hn.
  destruct (Z.ltb_spec n 8) as [Hlt | Hge].
  - destruct (Z.testbit f n) eqn:Ef.
    + rewrite (testbit_disjoint f g n Hfg Ef). now rewrite !andb_false_r.
    + cbn. now rewrite andb_true_r.
  - rewrite (testbit_byte_high g n) by assumption. now rewrite !andb_false_r.
Qed.

(** A flag that shares a bit with the literal [1] has bit 0; a byte
    disjoint from it reads as clear in [1] and in [1] with any flag
    cleared. *)
Lemma testbit_one (n : Z) : 0 <= n -> Z.testbit 1 n = (0 =? n).
Proof. intros Hn. change 1 with (2 ^ 0). now apply Z.pow2_bits_eqb. Qed.

Lemma literal_disjoint (f g : Z) :
  Z.land 1 f <> 0 -> Z.land f g = 0 -> Z.land 1 g = 0.
Proof.
  intros Hf Hfg.
  assert (Hf0 : Z.testbit f 0 = true).
  { destruct (Z.testbit f 0) eqn:E; [reflexivity |].
    exfalso. apply Hf. apply Z.bits_inj'. intros n Hn.
    rewrite Z.land_spec, testbit_one, Z.bits_0 by exact Hn.
    destruct (Z.eqb_spec 0 n) as [<- | _]; [now rewrite E | reflexivity]. }
  apply Z.bits_inj'. intros n Hn.
  rewrite Z.land_spec, testbit_one, Z.bits_0 by exact Hn.
  destruct (Z.eqb_spec 0 n) as [<- | _]; [| reflexivity].
  now rewrite (testbit_disjoint f g 0 Hfg Hf0).
Qed.

Lemma literal_cleared (f g : Z) :
  Z.land 1 g = 0 -> Z.land (to_u8 (Z.land 1 (Z.lnot f))) g = 0.
Proof.
  intros Hg. apply Z.bits_inj'. intros n Hn.
  rewrite Z.land_spec, testbit_to_u8, Z.land_spec, Z.bits_0 by exact Hn.
  destruct (Z.testbit 1 n) eqn:E1.
  - rewrite (testbit_disjoint _ _ n Hg E1). now rewrite andb_false_r.
  - cbn. now rewrite andb_false_r.
Qed.

(** ** Fixed-width conversions *)

Lemma to_s16_in_range (v : Z) : in_s16 v -> to_s16 v = v.
Proof.
  unfold in_s16, to_s16. intros Hv. cbv zeta.
  destruct (Z.ltb_spec (v mod 65536) 32768) as [H | H];
    Z.div_mod_to_equations; lia.
Qed.

Lemma midpoint_quot (hi lo : Z) :
  in_s16 hi -> in_s16 lo -> midpoint hi lo = Z.quot (hi + lo) 2.
Proof.
  intros Hhi Hlo. unfold midpoint. apply to_s16_in_range.
  unfold in_s16 in *. Z.to_euclidean_division_equations. lia.
Qed.

Lemma midpoint_in_s16 (hi lo : Z) : in_s16 (midpoint hi lo).
Proof.
  unfold midpoint, to_s16, in_s16. cbv zeta.
  destruct (Z.ltb_spec (Z.quot (hi + lo) 2 mod 65536) 32768) as [H | H];
    pose proof (Z.mod_pos_bound (Z.quot (hi + lo) 2) 65536); lia.
Qed.

(** The two bytes written for an offset are its low and high byte: put
    together they give the two's complement of the 16-bit value. *)
Lemma offset_bytes (v : Z) :
  to_u8 v + 256 * to_u8 (Z.shiftr v 8) = v mod 65536.
Proof.
  unfold to_u8. rewrite Z.shiftr_div_pow2 by lia. change (2 ^ 8) with 256.
  Z.div_mod_to_equations. lia.
Qed.

(** ** What each method does to the status and the deadline *)

Section Methods.

Context {hdr : Header}.

Lemma flag_nonzero_set (st f : Z) :
  0 < f < 256 -> Z.land (to_u8 (Z.lor st f)) f <> 0.
Proof. intros Hf. rewrite raise_reads_set; lia. Qed.

Lemma calibrateEnd_isCalibrating (s : State) :
  flags_wf -> isCalibrating (calibrateEnd s) = 0.
Proof.
  intros (Hd & Hg & Hdg). unfold isCalibrating. cbn.
  rewrite raise_keeps_other by (assumption || lia).
  apply clear_reads_clear.
Qed.

Lemma calibrateEnd_isCalibrated (s : State) :
  flags_wf -> isCalibrated (calibrateEnd s) = MICROBIT_COMPASS_STATUS_CALIBRATED.
Proof.
  intros (Hd & Hg & Hdg). unfold isCalibrated. cbn.
  apply raise_reads_set. lia.
Qed.

Lemma calibrateEnd_average (s : State) :
  average (compass (calibrateEnd s)) =
  mkSample (midpoint (x (maxSample (compass s))) (x (minSample (compass s))))
           (midpoint (y (maxSample (compass s))) (y (minSample (compass s))))
           (midpoint (z (maxSample (compass s))) (z (minSample (compass s)))).
Proof. reflexivity. Qed.

Lemma calibrateEnd_transfers (s : State) :
  transfers (uBit (calibrateEnd s)) =
  transfers (uBit s) ++
  offset_writes (address (compass s)) (average (compass (calibrateEnd s))).
Proof.
  cbn. repeat rewrite <- app_assoc. reflexivity.
Qed.

Lemma calibrateEnd_events (s : State) :
  events (uBit (calibrateEnd s)) =
  events (uBit s) ++ [(id (compass s), MICROBIT_COMPASS_EVT_CAL_END)].
Proof. reflexivity. Qed.

Lemma calibrateEnd_eventStartTime (s : State) :
  eventStartTime (compass (calibrateEnd s)) = eventStartTime (compass s).
Proof. reflexivity. Qed.

Lemma clearCalibration_isCalibrated (s : State) :
  isCalibrated (clearCalibration s) = 0.
Proof. unfold isCalibrated. cbn. apply clear_reads_clear. Qed.

Lemma clearCalibration_isCalibrating (s : State) :
  flags_wf -> isCalibrating (clearCalibration s) = isCalibrating s.
Proof.
  intros (Hd & Hg & Hdg). unfold isCalibrating. cbn.
  apply clear_keeps_other; (assumption || lia).
Qed.

Lemma calibrateStart_guard (s : State) :
  isCalibrating s <> 0 -> calibrateStart s = s.
Proof.
  intros Hc. unfold calibrateStart.
  destruct (Z.eqb_spec (isCalibrating s) 0) as [E | E]; [contradiction | reflexivity].
Qed.

Lemma calibrateStart_fresh (s : State) :
  isCalibrating s = 0 ->
  calibrateStart s =
  mkState (set_maxSample (sample (compass s))
             (set_minSample (sample (compass s))
                (raise_flag MICROBIT_COMPASS_STATUS_CALIBRATING (compass s))))
          (MicroBitEvent (id (compass s)) MICROBIT_COMPASS_EVT_CAL_START (uBit s)).
Proof.
  intros Hc. unfold calibrateStart. rewrite Hc. reflexivity.
Qed.

Lemma calibrateStart_isCalibrating (s : State) :
  flags_wf -> isCalibrating (calibrateStart s) <> 0.
Proof.
  intros (Hd & Hg & Hdg).
  destruct (Z.eq_dec (isCalibrating s) 0) as [E | E].
  - rewrite calibrateStart_fresh by exact E. unfold isCalibrating. cbn.
    now apply flag_nonzero_set.
  - now rewrite calibrateStart_guard.
Qed.

Lemma calibrateStart_isCalibrated (s : State) :
  flags_wf -> isCalibrated (calibrateStart s) = isCalibrated s.
Proof.
  intros (Hd & Hg & Hdg).
  destruct (Z.eq_dec (isCalibrating s) 0) as [E | E].
  - rewrite calibrateStart_fresh by exact E. unfold isCalibrated. cbn.
    apply raise_keeps_other; [lia |]. now rewrite Z.land_comm.
  - now rewrite calibrateStart_guard.
Qed.

Lemma calibrateStart_eventStartTime (s : State) :
  eventStartTime (compass (calibrateStart s)) = eventStartTime (compass s).
Proof.
  destruct (Z.eq_dec (isCalibrating s) 0) as [E | E].
  - now rewrite calibrateStart_fresh.
  - now rewrite calibrateStart_guard.
Qed.

Lemma calibrateAsync_isCalibrating (s : State) :
  flags_wf -> isCalibrating (calibrateAsync s) <> 0.
Proof. intros Hwf. unfold calibrateAsync. now apply calibrateStart_isCalibrating. Qed.


Lemma calibrateAsync_eventStartTime (s : State) :
  eventStartTime (compass (calibrateAsync s)) = ticks (uBit s).
Proof. unfold calibrateAsync. now rewrite calibrateStart_eventStartTime. Qed.

(** *** [heading] *)

(** On a calibrated compass that is not calibrating, [heading] raises
    nothing and hands the two offset-corrected differences to the
    floating-point computation. *)
Lemma heading_calibrated (bearing_to_heading : Z -> Z -> Z) (s : State) :
  isCalibrating s = 0 -> isCalibrated s <> 0 ->
  heading bearing_to_heading s =
  (bearing_to_heading (y (sample (compass s)) - y (average (compass s)))
                      (x (sample (compass s)) - x (average (compass s))), s).
Proof.
  intros Hg Hd. unfold heading. rewrite Hg. cbn [Z.eqb negb].
  destruct (Z.eqb_spec (isCalibrated s) 0) as [E | E]; [contradiction | reflexivity].
Qed.

(** *** [idleTick] *)

(** The poll does nothing when the data-ready line is low. *)
Lemma idleTick_not_ready (s : State) :
  int1 (uBit s) = false -> idleTick s = s.
Proof. intros Hr. unfold idleTick. now rewrite Hr. Qed.

(** Register reads leave the compass object, the clock and the pin as
    they are. *)
Lemma read16_frame (reg : Z) (s : State) :
  compass (snd (read16 reg s)) = compass s /\
  ticks (uBit (snd (read16 reg s))) = ticks (uBit s) /\
  int1 (uBit (snd (read16 reg s))) = int1 (uBit s).
Proof. now repeat split. Qed.

(** The shape of a poll that finds data ready: [s1] is the state with the
    new sample, [s2] the one with the extents widened as well; neither
    step touches the status or the deadline. *)
Lemma idleTick_ready (s : State) :
  int1 (uBit s) = true ->
  exists s1 s2,
    (status (compass s1) = status (compass s) /\
     eventStartTime (compass s1) = eventStartTime (compass s)) /\
    (status (compass s2) = status (compass s) /\
     eventStartTime (compass s2) = eventStartTime (compass s) /\
     id (compass s2) = id (compass s)) /\
    idleTick s =
    if negb (isCalibrating s =? 0) then
      if deadline_passed s
      then calibrateEnd (on_compass (set_eventStartTime 0) s2)
      else s2
    else s1.
Proof.
  intros Hr. unfold idleTick. rewrite Hr.
  pose proof (read16_frame MAG_OUT_X_MSB s) as (C1 & T1 & _).
  destruct (read16 MAG_OUT_X_MSB s) as [sx s1]. cbn [snd] in C1, T1.
  pose proof (read16_frame MAG_OUT_Y_MSB s1) as (C2 & T2 & _).
  destruct (read16 MAG_OUT_Y_MSB s1) as [sy s2]. cbn [snd] in C2, T2.
  pose proof (read16_frame MAG_OUT_Z_MSB s2) as (C3 & T3 & _).
  destruct (read16 MAG_OUT_Z_MSB s2) as [sz s3]. cbn [snd] in C3, T3.
  assert (C : compass s3 = compass s) by congruence.
  assert (T : ticks (uBit s3) = ticks (uBit s)) by congruence.
  clear C1 C2 C3 T1 T2 T3.
  destruct s3 as [c3 d3]. cbn [compass uBit] in C, T. subst c3.
  cbv zeta.
  match goal with
  | |- context [if negb (isCalibrating ?a =? 0)
                then (if deadline_passed ?b then _ else _) else _] =>
      exists a; exists b;
      change (isCalibrating a) with (isCalibrating s);
      replace (deadline_passed b) with (deadline_passed s)
        by (unfold deadline_passed; cbn [on_compass compass uBit eventStartTime
              set_maxSample set_minSample set_sample]; now rewrite T)
  end.
  split; [now split |]. split; [now repeat split |]. reflexivity.
Qed.

(** A poll that does not end the calibration keeps status and deadline. *)
Lemma idleTick_waits (s : State) :
  int1 (uBit s) = false \/ isCalibrating s = 0 \/ deadline_passed s = false ->
  status (compass (idleTick s)) = status (compass s) /\
  eventStartTime (compass (idleTick s)) = eventStartTime (compass s).
Proof.
  intros H.
  destruct (int1 (uBit s)) eqn:Hr; [| now rewrite idleTick_not_ready].
  destruct (idleTick_ready s Hr) as (s1 & s2 & [Hs1 He1] & (Hs2 & He2 & _) & ->).
  destruct (Z.eqb_spec (isCalibrating s) 0) as [E | E]; cbn [negb]; [now split |].
  destruct H as [H | [H | H]]; [discriminate | contradiction |].
  rewrite H. now split.
Qed.

(** A poll with data ready during a calibration whose deadline has passed
    clears the deadline and ends the calibration. *)
Lemma idleTick_fires (s : State) :
  int1 (uBit s) = true -> isCalibrating s <> 0 -> deadline_passed s = true ->
  exists s', idleTick s = calibrateEnd s' /\
             status (compass s') = status (compass s) /\
             id (compass s') = id (compass s) /\
             eventStartTime (compass s') = 0.
Proof.
  intros Hr Hc Hd.
  destruct (idleTick_ready s Hr) as (s1 & s2 & _ & (Hs2 & _ & Hi2) & ->).
  destruct (Z.eqb_spec (isCalibrating s) 0) as [E | E]; [contradiction |].
  cbn [negb]. rewrite Hd. eexists. split; [reflexivity |]. now repeat split.
Qed.

End Methods.

(** ** The sensor's registers *)

Lemma store_hit (r v : Z) (m : Z -> Z) : store r v m r = v.
Proof. unfold store. now rewrite Z.eqb_refl. Qed.

Lemma store_zero_keeps (r : Z) (m : Z -> Z) (a : Z) :
  m a = 0 -> store r 0 m a = 0.
Proof. intros Ha. unfold store. now destruct (a =? r). Qed.

Lemma to_u8_idem (v : Z) : to_u8 (to_u8 v + 0) = to_u8 v.
Proof. unfold to_u8. rewrite Z.add_0_r. apply Z.mod_mod. lia. Qed.

(** [read16] returns the register pair at [reg]. *)
Lemma read16_value (reg : Z) (s : State) :
  fst (read16 reg s) = register16 (registers (uBit s)) reg.
Proof.
  unfold read16, register16, i2c_read, i2c_write.
  cbn [fst snd pointer registers load_run nth uBit store_run List.length Z.of_nat].
  now rewrite to_u8_idem.
Qed.

(** [read8] returns the register at [reg] as a signed byte. *)
Lemma read8_value (reg : Z) (s : State) :
  fst (read8 reg s) = to_s8 (to_u8 (registers (uBit s) (to_u8 reg))).
Proof.
  unfold read8, readCommand, i2c_read, i2c_write.
  cbn [fst snd pointer registers load_run nth uBit store_run List.length Z.of_nat map].
  now rewrite to_u8_idem.
Qed.

Section Registers.

Context {hdr : Header}.

Lemma clearCalibration_registers (s : State) :
  registers (uBit (clearCalibration s)) =
  store (to_u8 MAG_OFF_Z_MSB) 0 (store (to_u8 MAG_OFF_Z_LSB) 0
    (store (to_u8 MAG_OFF_Y_MSB) 0 (store (to_u8 MAG_OFF_Y_LSB) 0
      (store (to_u8 MAG_OFF_X_MSB) 0 (store (to_u8 MAG_OFF_X_LSB) 0
        (registers (uBit s))))))).
Proof. reflexivity. Qed.

Lemma clearCalibration_zeroes (s : State) (r : Z) :
  In r offset_registers -> registers (uBit (clearCalibration s)) (to_u8 r) = 0.
Proof.
  intros Hr. rewrite clearCalibration_registers.
  unfold offset_registers in Hr. cbn [In] in Hr.
  repeat (destruct Hr as [<- | Hr];
          [repeat first [apply store_hit | apply store_zero_keeps] |]).
  contradiction.
Qed.

(** The compass object the constructor leaves behind. *)
Lemma constructor_compass (id0 addr : Z) (d : Device) :
  let regs := store (to_u8 MAG_CTRL_REG1) 97
                (store (to_u8 MAG_CTRL_REG2) 160 (registers d)) in
  let avg := mkSample (register16 regs MAG_OFF_X_MSB)
                      (register16 regs MAG_OFF_Y_MSB)
                      (register16 regs MAG_OFF_Z_MSB) in
  compass (constructor id0 addr d) =
  if (x avg =? 0) && (y avg =? 0) && (z avg =? 0)
  then clear_flag MICROBIT_COMPASS_STATUS_CALIBRATED
         (set_average avg (fresh (to_u16 id0) (to_u16 addr)))
  else set_average avg (fresh (to_u16 id0) (to_u16 addr)).
Proof.
  intros regs avg. unfold constructor.
  pose (s0 := mkState (fresh (to_u16 id0) (to_u16 addr)) d).
  pose (s2 := writeCommand MAG_CTRL_REG1 97 (writeCommand MAG_CTRL_REG2 160 s0)).
  pose (r1 := read16 MAG_OFF_X_MSB s2).
  pose (r2 := read16 MAG_OFF_Y_MSB (snd r1)).
  pose (r3 := read16 MAG_OFF_Z_MSB (snd r2)).
  assert (H1 : fst r1 = x avg) by apply read16_value.
  assert (H2 : fst r2 = y avg) by apply read16_value.
  assert (H3 : fst r3 = z avg) by apply read16_value.
  match goal with |- _ = ?rhs => change (compass
            (on_uBit (fun d' => set_flags
                        (to_u32 (Z.lor (flags d') MICROBIT_FLAG_COMPASS_RUNNING)) d')
               (if (fst r1 =? 0) && (fst r2 =? 0) && (fst r3 =? 0)
                then on_compass (clear_flag MICROBIT_COMPASS_STATUS_CALIBRATED)
                       (on_compass (set_average (mkSample (fst r1) (fst r2) (fst r3)))
                          (snd r3))
                else on_compass (set_average (mkSample (fst r1) (fst r2) (fst r3)))
                       (snd r3))) = rhs) end.
  rewrite H1, H2, H3.
  now destruct ((x avg =? 0) && (y avg =? 0) && (z avg =? 0)).
Qed.

End Registers.

(** ** Polls during an asynchronous calibration *)

Section Deadline.

Context {hdr : Header}.

(** What a poll sees of the deadline. *)
Lemma poll_deadline (p : Poll) (s : State) :
  deadline_passed
    (on_uBit (environment (poll_ticks p) (poll_ready p) (poll_registers p)) s) =
  negb (eventStartTime (compass s) =? 0)
  && (to_u32 (eventStartTime (compass s) + MICROBIT_COMPASS_CALIBRATE_PERIOD)
      <? poll_ticks p).
Proof. reflexivity. Qed.

Lemma to_u32_small (v : Z) : 0 <= v < 2 ^ 32 -> to_u32 v = v.
Proof. intros Hv. unfold to_u32. now apply Z.mod_small. Qed.

Lemma poll_keeps_waiting (T : Z) (p : Poll) (s : State) :
  0 <= T + MICROBIT_COMPASS_CALIBRATE_PERIOD < 2 ^ 32 ->
  poll_ready p = false \/ poll_ticks p <= T + MICROBIT_COMPASS_CALIBRATE_PERIOD ->
  waiting T s -> waiting T (poll p s).
Proof.
  intros Hrange Hp [Hc He]. unfold poll.
  set (s' := on_uBit _ s).
  assert (Hw : int1 (uBit s') = false \/ isCalibrating s' = 0 \/
               deadline_passed s' = false).
  { destruct Hp as [Hp | Hp]; [now left |]. right. right.
    unfold s'. rewrite poll_deadline, He, to_u32_small by exact Hrange.
    apply andb_false_intro2. now apply Z.ltb_ge. }
  destruct (idleTick_waits s' Hw) as [Hs Ht].
  split.
  - unfold isCalibrating. now rewrite Hs.
  - now rewrite Ht.
Qed.

Lemma polls_keep_waiting (T : Z) (ps : list Poll) (s : State) :
  0 <= T + MICROBIT_COMPASS_CALIBRATE_PERIOD < 2 ^ 32 ->
  Forall (fun q => poll_ready q = false \/
                   poll_ticks q <= T + MICROBIT_COMPASS_CALIBRATE_PERIOD) ps ->
  waiting T s -> waiting T (polls ps s).
Proof.
  intros Hrange Hps. revert s.
  induction Hps as [| q ps Hq _ IH]; intros s Hw; cbn [polls].
  - exact Hw.
  - apply IH. now apply poll_keeps_waiting.
Qed.

Lemma poll_ends_waiting (T : Z) (p : Poll) (s : State) :
  flags_wf ->
  T <> 0 -> 0 <= T + MICROBIT_COMPASS_CALIBRATE_PERIOD < 2 ^ 32 ->
  poll_ready p = true -> T + MICROBIT_COMPASS_CALIBRATE_PERIOD < poll_ticks p ->
  waiting T s ->
  isCalibrating (poll p s) = 0 /\ isCalibrated (poll p s) <> 0 /\
  eventStartTime (compass (poll p s)) = 0.
Proof.
  intros Hwf HT Hrange Hr Ht [Hc He]. unfold poll.
  set (s' := on_uBit _ s).
  assert (Hd : deadline_passed s' = true).
  { unfold s'. rewrite poll_deadline, He, to_u32_small by exact Hrange.
    apply andb_true_intro. split.
    - apply negb_true_iff. now apply Z.eqb_neq.
    - now apply Z.ltb_lt. }
  destruct (idleTick_fires s' Hr Hc Hd) as (s'' & -> & _ & _ & He'').
  split; [now apply calibrateEnd_isCalibrating |].
  split.
  - rewrite calibrateEnd_isCalibrated by exact Hwf. destruct Hwf as (Hd' & _). lia.
  - now rewrite calibrateEnd_eventStartTime.
Qed.

End Deadline.

(** * The claims *)

Ltac header_facts :=
  unfold flags_wf, literal_wf; cbn; repeat split; (reflexivity || discriminate || lia).

(** ** Calibration state *)




(** ** Deadline of an asynchronous calibration *)

(** C2 (as amended).  Let [calibrateAsync] be called at tick [T], with
    [T] not zero and [T + W] within the tick counter's range, [W] being
    the calibration period, and let [calibrateEnd] not be called by hand.
    Every poll that finds no data ready, or finds data ready at a tick of
    at most [T + W], leaves the compass calibrating with deadline [T].
    The first poll that finds data ready at a tick strictly greater than
    [T + W] clears CALIBRATING, sets CALIBRATED and resets the deadline to
    zero. *)
Theorem deadline_ends_calibration {hdr : Header}
    (s0 : State) (ps : list Poll) (p : Poll) :
  flags_wf ->
  ticks (uBit s0) <> 0 ->
  0 <= ticks (uBit s0) + MICROBIT_COMPASS_CALIBRATE_PERIOD < 2 ^ 32 ->
  Forall (fun q => poll_ready q = false \/
                   poll_ticks q <= ticks (uBit s0) + MICROBIT_COMPASS_CALIBRATE_PERIOD)
         ps ->
  poll_ready p = true ->
  ticks (uBit s0) + MICROBIT_COMPASS_CALIBRATE_PERIOD < poll_ticks p ->
  let s1 := polls ps (calibrateAsync s0) in
  let s2 := poll p s1 in
  (isCalibrating s1 <> 0 /\ eventStartTime (compass s1) = ticks (uBit s0)) /\
  (isCalibrating s2 = 0 /\ isCalibrated s2 <> 0 /\ eventStartTime (compass s2) = 0).
Proof.
  intros Hwf HT Hrange Hps Hr Ht s1 s2.
  assert (Hw : waiting (ticks (uBit s0)) s1).
  { apply polls_keep_waiting; [exact Hrange | exact Hps |].
    split; [now apply calibrateAsync_isCalibrating |].
    apply calibrateAsync_eventStartTime. }
  split; [exact Hw |].
  now apply (poll_ends_waiting (ticks (uBit s0))).
Qed.

(** Three polls after [calibrateAsync] at tick 5: no data at tick 20000,
    data at tick 10005, then data at tick 10006. *)
Lemma deadline_ends_calibration_witness :
  let early := [mkPoll 20000 false (fun _ => 0); mkPoll 10005 true (sensor 0 2 7)] in
  let late := mkPoll 10006 true (sensor 0 2 9) in
  let s1 := @polls mag3110 early (@calibrateAsync mag3110 blank_compass) in
  let s2 := @poll mag3110 late s1 in
  (@isCalibrating mag3110 s1 <> 0 /\ eventStartTime (compass s1) = 5) /\
  (@isCalibrating mag3110 s2 = 0 /\ @isCalibrated mag3110 s2 <> 0 /\
   eventStartTime (compass s2) = 0).
Proof.
  intros early late.
  refine (@deadline_ends_calibration mag3110 blank_compass early late _ _ _ _ _ _).
  - header_facts.
  - vm_compute. discriminate.
  - vm_compute. split; [intro; discriminate | reflexivity].
  - repeat constructor; cbn; lia.
  - reflexivity.
  - vm_compute. reflexivity.
Defined.

(** C2, as stated, fails at the tick [T + W] itself: after
    [calibrateAsync] at tick 5 with a period of 10000, a poll that finds
    data ready at tick 10005 leaves the compass calibrating and the
    deadline in place. *)
Lemma deadline_not_reached_at_period :
  let s0 := blank_compass in
  let p := mkPoll 10005 true (fun _ => 0) in
  let s2 := @poll mag3110 p (@calibrateAsync mag3110 s0) in
  ticks (uBit s0) = 5 /\
  @MICROBIT_COMPASS_CALIBRATE_PERIOD mag3110 = 10000 /\
  poll_ticks p >= ticks (uBit s0) + @MICROBIT_COMPASS_CALIBRATE_PERIOD mag3110 /\
  poll_ready p = true /\
  @isCalibrating mag3110 s2 <> 0 /\
  @isCalibrated mag3110 s2 = 0 /\
  eventStartTime (compass s2) = 5.
Proof.
  cbv zeta. repeat split; vm_compute; (reflexivity || discriminate).
Qed.

(** ** The offset computed by [calibrateEnd] *)

(** C3.  For all extents [M] (minimum) and [X] (maximum) held in the
    [int16_t] members, so in particular whenever [M <= X] on every axis,
    [calibrateEnd] sets the offset of each axis to [(M + X) / 2] with the
    division truncating toward zero, and then writes it to the six offset
    registers: low byte, then high byte, for X, then Y, then Z.  The two
    bytes of an axis are the low and the high byte of the 16-bit
    offset. *)
Theorem calibrateEnd_offset {hdr : Header} (s : State) :
  sample_ok (minSample (compass s)) ->
  sample_ok (maxSample (compass s)) ->
  let M := minSample (compass s) in
  let X := maxSample (compass s) in
  let s' := calibrateEnd s in
  let off := average (compass s') in
  off = mkSample (Z.quot (x M + x X) 2) (Z.quot (y M + y X) 2) (Z.quot (z M + z X) 2) /\
  transfers (uBit s') =
    transfers (uBit s) ++
    [ I2CWrite (address (compass s)) [to_u8 MAG_OFF_X_LSB; to_u8 (x off)] false;
      I2CWrite (address (compass s)) [to_u8 MAG_OFF_X_MSB; to_u8 (Z.shiftr (x off) 8)] false;
      I2CWrite (address (compass s)) [to_u8 MAG_OFF_Y_LSB; to_u8 (y off)] false;
      I2CWrite (address (compass s)) [to_u8 MAG_OFF_Y_MSB; to_u8 (Z.shiftr (y off) 8)] false;
      I2CWrite (address (compass s)) [to_u8 MAG_OFF_Z_LSB; to_u8 (z off)] false;
      I2CWrite (address (compass s)) [to_u8 MAG_OFF_Z_MSB; to_u8 (Z.shiftr (z off) 8)] false ] /\
  (to_u8 (x off) + 256 * to_u8 (Z.shiftr (x off) 8) = x off mod 65536 /\
   to_u8 (y off) + 256 * to_u8 (Z.shiftr (y off) 8) = y off mod 65536 /\
   to_u8 (z off) + 256 * to_u8 (Z.shiftr (z off) 8) = z off mod 65536).
Proof.
  intros (Mx & My & Mz) (Xx & Xy & Xz) M X s' off.
  split; [| split].
  - unfold off, s'. rewrite calibrateEnd_average.
    rewrite !midpoint_quot by assumption.
    fold M X. now rewrite (Z.add_comm (x X)), (Z.add_comm (y X)), (Z.add_comm (z X)).
  - unfold s'. rewrite calibrateEnd_transfers. reflexivity.
  - repeat split; apply offset_bytes.
Qed.

(** Extents reaching from (-300, -3, 10) to (101, 0, 20): the offsets are
    -99 (not -100), -1 (not -2) and 15. *)
Lemma calibrateEnd_offset_witness :
  let c := mkCompass 27 14 0 (mkSample (-300) (-3) 10) (mkSample 101 0 20)
                     zero_sample zero_sample 2 in
  let s := mkState c (power_on (fun _ => 0) 5) in
  average (compass (@calibrateEnd mag3110 s)) = mkSample (-99) (-1) 15 /\
  transfers (uBit (@calibrateEnd mag3110 s)) =
    [ I2CWrite 14 [10; 157] false; I2CWrite 14 [9; 255] false;
      I2CWrite 14 [12; 255] false; I2CWrite 14 [11; 255] false;
      I2CWrite 14 [14; 15] false; I2CWrite 14 [13; 0] false ].
Proof.
  intros c s.
  assert (Hmin : sample_ok (minSample (compass s)))
    by (unfold sample_ok, in_s16; cbn; lia).
  assert (Hmax : sample_ok (maxSample (compass s)))
    by (unfold sample_ok, in_s16; cbn; lia).
  destruct (@calibrateEnd_offset mag3110 s Hmin Hmax) as (Havg & Hlog & _).
  split.
  - rewrite Havg. reflexivity.
  - rewrite Hlog, Havg. reflexivity.
Defined.

(** C10.  [calibrateEnd] does not look at the calibration state.  Called
    while CALIBRATING is clear, whether or not a calibration was ever
    started, it computes the offset from the extents as they are (on
    each axis the sum of maximum and minimum, halved toward zero and
    stored in the [int16_t] member), leaves CALIBRATING clear and sets
    CALIBRATED, writes the offset to the six offset registers and raises
    the calibration-end event. *)
Theorem calibrateEnd_unguarded {hdr : Header} (s : State) :
  flags_wf ->
  isCalibrating s = 0 ->
  let lo := minSample (compass s) in
  let hi := maxSample (compass s) in
  let s' := calibrateEnd s in
  let off := average (compass s') in
  off = mkSample (to_s16 (Z.quot (x hi + x lo) 2)) (to_s16 (Z.quot (y hi + y lo) 2))
                 (to_s16 (Z.quot (z hi + z lo) 2)) /\
  (sample_ok lo -> sample_ok hi ->
   off = mkSample (Z.quot (x hi + x lo) 2) (Z.quot (y hi + y lo) 2)
                  (Z.quot (z hi + z lo) 2)) /\
  isCalibrating s' = 0 /\
  isCalibrated s' <> 0 /\
  transfers (uBit s') =
    transfers (uBit s) ++
    [ I2CWrite (address (compass s)) [to_u8 MAG_OFF_X_LSB; to_u8 (x off)] false;
      I2CWrite (address (compass s)) [to_u8 MAG_OFF_X_MSB; to_u8 (Z.shiftr (x off) 8)] false;
      I2CWrite (address (compass s)) [to_u8 MAG_OFF_Y_LSB; to_u8 (y off)] false;
      I2CWrite (address (compass s)) [to_u8 MAG_OFF_Y_MSB; to_u8 (Z.shiftr (y off) 8)] false;
      I2CWrite (address (compass s)) [to_u8 MAG_OFF_Z_LSB; to_u8 (z off)] false;
      I2CWrite (address (compass s)) [to_u8 MAG_OFF_Z_MSB; to_u8 (Z.shiftr (z off) 8)] false ] /\
  events (uBit s') =
    events (uBit s) ++ [(id (compass s), MICROBIT_COMPASS_EVT_CAL_END)].
Proof.
  intros Hwf _ lo hi s' off. unfold off, s'.
  split; [rewrite calibrateEnd_average; reflexivity |].
  split.
  { intros (Lx & Ly & Lz) (Hx & Hy & Hz). rewrite calibrateEnd_average.
    now rewrite !midpoint_quot by assumption. }
  split; [now apply calibrateEnd_isCalibrating |].
  split; [rewrite calibrateEnd_isCalibrated by exact Hwf;
          destruct Hwf as (Hd & _); lia |].
  split; [rewrite calibrateEnd_transfers; reflexivity | apply calibrateEnd_events].
Qed.

(** Two compasses with CALIBRATING clear.  One never started a
    calibration: [calibrateEnd] makes it calibrated with offset zero.
    The other is uncalibrated, holds the extents (-300, -3, 10) and
    (101, 0, 20) and the offset (1, 2, 3): [calibrateEnd] replaces the
    offset by (-99, -1, 15), computed from the extents, writes its six
    bytes and makes the compass calibrated. *)
Lemma calibrateEnd_unguarded_witness :
  let c := mkCompass 27 14 0 (mkSample (-300) (-3) 10) (mkSample 101 0 20)
                     (mkSample 1 2 3) zero_sample 0 in
  let s := mkState c (power_on (fun _ => 0) 5) in
  let s' := @calibrateEnd mag3110 s in
  let b' := @calibrateEnd mag3110 blank_compass in
  (@isCalibrating mag3110 s = 0 /\ @isCalibrated mag3110 s = 0 /\
   average (compass s') = mkSample (-99) (-1) 15 /\
   @isCalibrating mag3110 s' = 0 /\ @isCalibrated mag3110 s' <> 0 /\
   transfers (uBit s') =
     [ I2CWrite 14 [10; 157] false; I2CWrite 14 [9; 255] false;
       I2CWrite 14 [12; 255] false; I2CWrite 14 [11; 255] false;
       I2CWrite 14 [14; 15] false; I2CWrite 14 [13; 0] false ] /\
   events (uBit s') = [(27, 3)]) /\
  (@isCalibrating mag3110 blank_compass = 0 /\
   @isCalibrated mag3110 blank_compass = 0 /\
   average (compass b') = zero_sample /\
   @isCalibrated mag3110 b' <> 0 /\
   events (uBit b') = events (uBit blank_compass) ++ [(27, 3)]).
Proof.
  intros c s s' b'.
  assert (Hwf : @flags_wf mag3110) by header_facts.
  assert (Hs : @isCalibrating mag3110 s = 0) by reflexivity.
  assert (Hb : @isCalibrating mag3110 blank_compass = 0) by (vm_compute; reflexivity).
  destruct (@calibrateEnd_unguarded mag3110 s Hwf Hs)
    as (Ha & _ & Hg & Hd & Ht & He).
  destruct (@calibrateEnd_unguarded mag3110 blank_compass Hwf Hb)
    as (Ha' & _ & _ & Hd' & _ & He').
  fold s' in Ha, Hg, Hd, Ht, He. fold b' in Ha', Hd', He'.
  split.
  - split; [exact Hs |]. split; [reflexivity |].
    split; [rewrite Ha; reflexivity |].
    split; [exact Hg |]. split; [exact Hd |].
    split; [rewrite Ht, Ha; reflexivity | rewrite He; reflexivity].
  - split; [exact Hb |]. split; [vm_compute; reflexivity |].
    split; [rewrite Ha'; vm_compute; reflexivity |].
    split; [exact Hd' |].
    rewrite He'. vm_compute. reflexivity.
Defined.

(** ** Starting and clearing *)

(** C6.  [calibrateStart] called while CALIBRATING is set does nothing:
    the state is returned as it is, so the extents, the status flags and
    the raised events are unchanged and no second calibration-start event
    is raised. *)
Theorem calibrateStart_while_calibrating {hdr : Header} (s : State) :
  isCalibrating s <> 0 ->
  let s' := calibrateStart s in
  s' = s /\
  minSample (compass s') = minSample (compass s) /\
  maxSample (compass s') = maxSample (compass s) /\
  status (compass s') = status (compass s) /\
  events (uBit s') = events (uBit s).
Proof.
  intros Hc s'. unfold s'. rewrite (calibrateStart_guard s Hc). now repeat split.
Qed.

(** A session started at tick 5 has seen one sample; a second
    [calibrateStart] keeps the extents of the session. *)
Lemma calibrateStart_while_calibrating_witness :
  let s := @poll mag3110 (mkPoll 6 true (sensor 0 2 7))
             (@calibrateStart mag3110 blank_compass) in
  @isCalibrating mag3110 s <> 0 /\
  maxSample (compass s) = mkSample 7 0 0 /\
  @calibrateStart mag3110 s = s.
Proof.
  intros s.
  assert (Hc : @isCalibrating mag3110 s <> 0) by (vm_compute; discriminate).
  split; [exact Hc |]. split; [vm_compute; reflexivity |].
  exact (proj1 (@calibrateStart_while_calibrating mag3110 s Hc)).
Defined.

(** C7.  From any state, after [clearCalibration] each of the six offset
    registers holds zero and reads back as zero, [isCalibrated] is false,
    and [isCalibrating] returns what it returned before. *)
Theorem clearCalibration_frame {hdr : Header} (s : State) :
  flags_wf ->
  let s' := clearCalibration s in
  (forall r, In r offset_registers ->
             registers (uBit s') (to_u8 r) = 0 /\ fst (read8 r s') = 0) /\
  isCalibrated s' = 0 /\
  isCalibrating s' = isCalibrating s.
Proof.
  intros Hwf s'. unfold s'. split; [| split].
  - intros r Hr.
    pose proof (clearCalibration_zeroes s r Hr) as Hz.
    split; [exact Hz |].
    rewrite read8_value, Hz. reflexivity.
  - apply clearCalibration_isCalibrated.
  - now apply clearCalibration_isCalibrating.
Qed.

(** Clearing in the middle of a recalibration of a compass with a stored
    offset: the offset is gone, the session goes on. *)
Lemma clearCalibration_frame_witness :
  let s := @calibrateStart mag3110 stored_compass in
  let s' := @clearCalibration mag3110 s in
  registers (uBit s) 10 = 100 /\
  registers (uBit s') 10 = 0 /\
  @isCalibrated mag3110 s' = 0 /\
  @isCalibrating mag3110 s' = @isCalibrating mag3110 s /\
  @isCalibrating mag3110 s <> 0.
Proof.
  intros s s'.
  assert (Hwf : @flags_wf mag3110) by header_facts.
  destruct (@clearCalibration_frame mag3110 s Hwf) as (Hregs & Hd & Hg).
  split; [vm_compute; reflexivity |].
  split; [exact (proj1 (Hregs MAG_OFF_X_LSB (or_introl eq_refl))) |].
  split; [exact Hd |]. split; [exact Hg |].
  vm_compute. discriminate.
Defined.

(** ** Construction *)

(** C8.  The constructor reads the three offsets back from the offset
    registers.  The compass starts CALIBRATED if and only if at least one
    of the three is not zero, and UNCALIBRATED when all three are zero;
    either way CALIBRATING starts clear and the deadline starts at
    zero. *)
Theorem constructor_initial_state {hdr : Header} (id0 addr : Z) (d : Device) :
  flags_wf -> literal_wf ->
  let s := constructor id0 addr d in
  let regs := store (to_u8 MAG_CTRL_REG1) 97
                (store (to_u8 MAG_CTRL_REG2) 160 (registers d)) in
  let off := average (compass s) in
  off = mkSample (register16 regs MAG_OFF_X_MSB) (register16 regs MAG_OFF_Y_MSB)
                 (register16 regs MAG_OFF_Z_MSB) /\
  (isCalibrated s <> 0 <-> x off <> 0 \/ y off <> 0 \/ z off <> 0) /\
  (x off = 0 /\ y off = 0 /\ z off = 0 -> isCalibrated s = 0) /\
  isCalibrating s = 0 /\
  eventStartTime (compass s) = 0.
Proof.
  intros Hwf Hlit1 s regs off. unfold literal_wf in Hlit1.
  assert (Hlit2 : Z.land 1 MICROBIT_COMPASS_STATUS_CALIBRATING = 0)
    by (apply (literal_disjoint _ _ Hlit1); apply Hwf).
  pose proof (constructor_compass id0 addr d) as Hc. cbv zeta in Hc.
  fold regs in Hc. fold s in Hc.
  unfold off, isCalibrated, isCalibrating. rewrite Hc. clear Hc.
  set (ax := register16 regs MAG_OFF_X_MSB).
  set (ay := register16 regs MAG_OFF_Y_MSB).
  set (az := register16 regs MAG_OFF_Z_MSB).
  cbn [x y z].
  assert (Hclr : Z.land (to_u8 (Z.land 1 (Z.lnot MICROBIT_COMPASS_STATUS_CALIBRATED)))
                        MICROBIT_COMPASS_STATUS_CALIBRATING = 0)
    by now apply literal_cleared.
  destruct (Z.eqb_spec ax 0) as [Ex | Ex];
    [destruct (Z.eqb_spec ay 0) as [Ey | Ey];
     [destruct (Z.eqb_spec az 0) as [Ez | Ez] |] |];
    cbn [andb average status eventStartTime clear_flag set_status set_average fresh
         x y z].
  all: rewrite ?clear_reads_clear; repeat split;
    solve [reflexivity | assumption | tauto].
Qed.

(** A sensor with nothing stored, and one whose X offset registers hold
    100. *)
Lemma constructor_initial_state_witness :
  (@isCalibrated mag3110 blank_compass = 0 /\
   @isCalibrating mag3110 blank_compass = 0) /\
  (average (compass stored_compass) = mkSample 100 0 0 /\
   @isCalibrated mag3110 stored_compass <> 0 /\
   @isCalibrating mag3110 stored_compass = 0 /\
   eventStartTime (compass stored_compass) = 0).
Proof.
  assert (Hwf : @flags_wf mag3110) by header_facts.
  assert (Hlit : @literal_wf mag3110) by header_facts.
  pose proof (@constructor_initial_state mag3110 27 14 (power_on (fun _ => 0) 5)
                Hwf Hlit) as (Ha & _ & Hz & Hg & _).
  pose proof (@constructor_initial_state mag3110 27 14 (power_on (sensor 0 10 100) 5)
                Hwf Hlit) as (Ha' & Hd' & _ & Hg' & He').
  fold blank_compass in Ha, Hz, Hg. fold stored_compass in Ha', Hd', Hg', He'.
  split.
  - split; [| exact Hg]. apply Hz. rewrite Ha. vm_compute. now repeat split.
  - split; [rewrite Ha'; vm_compute; reflexivity |].
    split; [| split; [exact Hg' | exact He']].
    apply Hd'. left. rewrite Ha'. vm_compute. discriminate.
Defined.

(** ** Return codes of [heading] *)

(** C5.  Whenever CALIBRATING is set, [heading] returns the
    calibration-in-progress code and raises nothing, whatever CALIBRATED
    is.  With CALIBRATING clear and CALIBRATED clear it raises the
    calibration-required event and returns the calibration-required
    code; and the event is raised in no other case, so the check for
    CALIBRATING comes first. *)
Theorem heading_codes {hdr : Header} (bearing_to_heading : Z -> Z -> Z) (s : State) :
  (isCalibrating s <> 0 ->
   heading bearing_to_heading s = (MICROBIT_COMPASS_IS_CALIBRATING, s)) /\
  (isCalibrating s = 0 -> isCalibrated s = 0 ->
   heading bearing_to_heading s =
   (MICROBIT_COMPASS_CALIBRATE_REQUIRED,
    on_uBit (MicroBitEvent (id (compass s)) MICROBIT_COMPASS_EVT_CAL_REQUIRED) s)) /\
  (events (uBit (snd (heading bearing_to_heading s))) <> events (uBit s) ->
   isCalibrating s = 0 /\ isCalibrated s = 0).
Proof.
  unfold heading.
  destruct (Z.eqb_spec (isCalibrating s) 0) as [Hg | Hg]; cbn [negb];
    [destruct (Z.eqb_spec (isCalibrated s) 0) as [Hd | Hd] |];
    repeat split; intros; (reflexivity || assumption || contradiction).
Qed.

(** A compass in the middle of a recalibration has both flags set and
    gets the calibration-in-progress code; a blank compass gets the
    calibration-required code and the event. *)
Lemma heading_codes_witness :
  let busy := @calibrateStart mag3110 stored_compass in
  (@isCalibrating mag3110 busy <> 0 /\ @isCalibrated mag3110 busy <> 0 /\
   @heading mag3110 no_bearing busy = (-1, busy)) /\
  (@isCalibrating mag3110 blank_compass = 0 /\
   @isCalibrated mag3110 blank_compass = 0 /\
   fst (@heading mag3110 no_bearing blank_compass) = -2 /\
   events (uBit (snd (@heading mag3110 no_bearing blank_compass))) = [(27, 1)]).
Proof.
  intros busy.
  assert (Hb : @isCalibrating mag3110 busy <> 0) by (vm_compute; discriminate).
  assert (Hg : @isCalibrating mag3110 blank_compass = 0) by (vm_compute; reflexivity).
  assert (Hd : @isCalibrated mag3110 blank_compass = 0) by (vm_compute; reflexivity).
  pose proof (proj1 (@heading_codes mag3110 no_bearing busy) Hb) as H1.
  pose proof (proj1 (proj2 (@heading_codes mag3110 no_bearing blank_compass)) Hg Hd) as H2.
  split.
  - split; [exact Hb |]. split; [vm_compute; discriminate | exact H1].
  - split; [exact Hg |]. split; [exact Hd |].
    rewrite H2. split; [reflexivity | vm_compute; reflexivity].
Defined.

(** * Further properties of the driver *)

(** ** Register access *)

Lemma to_s16_range (v : Z) : in_s16 (to_s16 v).
Proof.
  unfold to_s16, in_s16. cbv zeta.
  pose proof (Z.mod_pos_bound v 65536).
  destruct (Z.ltb_spec (v mod 65536) 32768); lia.
Qed.

Lemma to_s8_range (v : Z) : -128 <= to_s8 v <= 127.
Proof.
  unfold to_s8. cbv zeta.
  pose proof (Z.mod_pos_bound v 256).
  destruct (Z.ltb_spec (v mod 256) 128); lia.
Qed.

Lemma to_u8_range (v : Z) : 0 <= to_u8 v < 256.
Proof. unfold to_u8. apply Z.mod_pos_bound. lia. Qed.

Lemma to_u8_small (v : Z) : 0 <= v < 256 -> to_u8 v = v.
Proof. intros Hv. unfold to_u8. now apply Z.mod_small. Qed.

Lemma register16_range (regs : Z -> Z) (reg : Z) : in_s16 (register16 regs reg).
Proof. unfold register16. apply to_s16_range. Qed.

(** What a register read leaves behind on the device: the same
    registers, events, flags, clock and pin, and two more transfers. *)
Lemma read16_device (reg : Z) (s : State) :
  let d := uBit (snd (read16 reg s)) in
  registers d = registers (uBit s) /\
  events d = events (uBit s) /\
  flags d = flags (uBit s) /\
  ticks d = ticks (uBit s) /\
  int1 d = int1 (uBit s) /\
  transfers d = transfers (uBit s) ++
    [I2CWrite (address (compass s)) [to_u8 reg] false;
     I2CRead (address (compass s)) 2].
Proof.
  cbv zeta. repeat split. cbn. now rewrite <- app_assoc.
Qed.

(** Joining the two bytes of a 16-bit value gives the value back. *)
Lemma bytes_disjoint (lo hi : Z) :
  Z.land (to_u8 lo) (Z.shiftl (to_u8 hi) 8) = 0.
Proof.
  apply Z.bits_inj'. intros n Hn.
  rewrite Z.land_spec, testbit_to_u8, Z.bits_0 by exact Hn.
  destruct (Z.ltb_spec n 8) as [Hlt | Hge].
  - rewrite Z.shiftl_spec_low by lia. now rewrite andb_false_r.
  - reflexivity.
Qed.

Lemma join_bytes (v : Z) :
  in_s16 v ->
  to_s16 (Z.lor (to_u8 (to_u8 v)) (Z.shiftl (to_u8 (to_u8 (Z.shiftr v 8))) 8)) = v.
Proof.
  intros Hv.
  rewrite <- Z.lxor_lor by apply bytes_disjoint.
  rewrite <- Z.add_nocarry_lxor by apply bytes_disjoint.
  rewrite Z.shiftl_mul_pow2 by lia. change (2 ^ 8) with 256.
  rewrite !(to_u8_small (to_u8 _)) by apply to_u8_range.
  rewrite Z.mul_comm, offset_bytes.
  unfold to_s16. cbv zeta. rewrite Z.mod_mod by lia.
  now apply to_s16_in_range.
Qed.

Lemma store_miss (r v : Z) (m : Z -> Z) (a : Z) :
  a <> r -> store r v m a = m a.
Proof.
  intros Ha. unfold store. destruct (Z.eqb_spec a r); [contradiction | reflexivity].
Qed.

(** ** The compass object after each method *)

Section Shapes.

Context {hdr : Header}.

Lemma calibrateEnd_compass (s : State) :
  compass (calibrateEnd s) =
  raise_flag MICROBIT_COMPASS_STATUS_CALIBRATED
    (clear_flag MICROBIT_COMPASS_STATUS_CALIBRATING
       (set_average
          (mkSample (midpoint (x (maxSample (compass s))) (x (minSample (compass s))))
                    (midpoint (y (maxSample (compass s))) (y (minSample (compass s))))
                    (midpoint (z (maxSample (compass s))) (z (minSample (compass s)))))
          (compass s))).
Proof. reflexivity. Qed.

Lemma calibrateEnd_registers (s : State) :
  let avg := average (compass (calibrateEnd s)) in
  registers (uBit (calibrateEnd s)) =
  store (to_u8 MAG_OFF_Z_MSB) (to_u8 (Z.shiftr (z avg) 8))
    (store (to_u8 MAG_OFF_Z_LSB) (to_u8 (z avg))
       (store (to_u8 MAG_OFF_Y_MSB) (to_u8 (Z.shiftr (y avg) 8))
          (store (to_u8 MAG_OFF_Y_LSB) (to_u8 (y avg))
             (store (to_u8 MAG_OFF_X_MSB) (to_u8 (Z.shiftr (x avg) 8))
                (store (to_u8 MAG_OFF_X_LSB) (to_u8 (x avg))
                   (registers (uBit s))))))).
Proof. reflexivity. Qed.

Lemma clearCalibration_compass (s : State) :
  compass (clearCalibration s) =
  clear_flag MICROBIT_COMPASS_STATUS_CALIBRATED (compass s).
Proof. reflexivity. Qed.

Lemma clearCalibration_events (s : State) :
  events (uBit (clearCalibration s)) = events (uBit s).
Proof. reflexivity. Qed.

Lemma heading_compass (bearing_to_heading : Z -> Z -> Z) (s : State) :
  compass (snd (heading bearing_to_heading s)) = compass s.
Proof.
  unfold heading.
  destruct (negb (isCalibrating s =? 0)); [reflexivity |].
  destruct (isCalibrated s =? 0); reflexivity.
Qed.

Lemma whoAmI_compass (s : State) : compass (snd (whoAmI s)) = compass s.
Proof. reflexivity. Qed.

(** A poll that finds data ready: [d] is the device after the three
    register reads. *)
Lemma idleTick_shape (s : State) :
  int1 (uBit s) = true ->
  exists d,
    (registers d = registers (uBit s) /\
     events d = events (uBit s) /\
     transfers d = transfers (uBit s) ++
       [I2CWrite (address (compass s)) [to_u8 MAG_OUT_X_MSB] false;
        I2CRead (address (compass s)) 2;
        I2CWrite (address (compass s)) [to_u8 MAG_OUT_Y_MSB] false;
        I2CRead (address (compass s)) 2;
        I2CWrite (address (compass s)) [to_u8 MAG_OUT_Z_MSB] false;
        I2CRead (address (compass s)) 2]) /\
    idleTick s =
    let v := reading (registers (uBit s)) in
    if negb (isCalibrating s =? 0) then
      let c := set_maxSample (sample_max v (maxSample (compass s)))
                 (set_minSample (sample_min v (minSample (compass s)))
                    (set_sample v (compass s))) in
      if deadline_passed s
      then calibrateEnd (mkState (set_eventStartTime 0 c) d)
      else mkState c d
    else mkState (set_sample v (compass s)) d.
Proof.
  intros Hr. unfold idleTick. rewrite Hr.
  pose proof (read16_frame MAG_OUT_X_MSB s) as (C1 & _).
  pose proof (read16_device MAG_OUT_X_MSB s) as (R1 & E1 & _ & T1 & _ & L1).
  pose proof (read16_value MAG_OUT_X_MSB s) as V1.
  destruct (read16 MAG_OUT_X_MSB s) as [sx s1]. cbn [fst snd] in C1, R1, E1, T1, L1, V1.
  pose proof (read16_frame MAG_OUT_Y_MSB s1) as (C2 & _).
  pose proof (read16_device MAG_OUT_Y_MSB s1) as (R2 & E2 & _ & T2 & _ & L2).
  pose proof (read16_value MAG_OUT_Y_MSB s1) as V2.
  destruct (read16 MAG_OUT_Y_MSB s1) as [sy s2]. cbn [fst snd] in C2, R2, E2, T2, L2, V2.
  pose proof (read16_frame MAG_OUT_Z_MSB s2) as (C3 & _).
  pose proof (read16_device MAG_OUT_Z_MSB s2) as (R3 & E3 & _ & T3 & _ & L3).
  pose proof (read16_value MAG_OUT_Z_MSB s2) as V3.
  destruct (read16 MAG_OUT_Z_MSB s2) as [sz s3]. cbn [fst snd] in C3, R3, E3, T3, L3, V3.
  assert (C : compass s3 = compass s) by congruence.
  assert (R : registers (uBit s3) = registers (uBit s)) by congruence.
  assert (E : events (uBit s3) = events (uBit s)) by congruence.
  assert (T : ticks (uBit s3) = ticks (uBit s)) by congruence.
  assert (V : mkSample sx sy sz = reading (registers (uBit s))).
  { unfold reading. rewrite V1, V2, V3. congruence. }
  assert (L : transfers (uBit s3) = transfers (uBit s) ++
       [I2CWrite (address (compass s)) [to_u8 MAG_OUT_X_MSB] false;
        I2CRead (address (compass s)) 2;
        I2CWrite (address (compass s)) [to_u8 MAG_OUT_Y_MSB] false;
        I2CRead (address (compass s)) 2;
        I2CWrite (address (compass s)) [to_u8 MAG_OUT_Z_MSB] false;
        I2CRead (address (compass s)) 2]).
  { rewrite L3, L2, L1, C2, C1. now rewrite <- !app_assoc. }
  clear C1 C2 C3 R1 R2 R3 E1 E2 E3 T1 T2 T3 L1 L2 L3 V1 V2 V3.
  destruct s3 as [c3 d3]. cbn [compass uBit] in C, R, E, T, L. subst c3.
  exists d3. split; [now repeat split |].
  cbv zeta. rewrite V.
  change (isCalibrating (on_compass (set_sample (reading (registers (uBit s))))
                           (mkState (compass s) d3)))
    with (isCalibrating s).
  destruct (negb (isCalibrating s =? 0)); [| reflexivity].
  match goal with
  | |- (if deadline_passed ?b then _ else _) = _ =>
      replace (deadline_passed b) with (deadline_passed s)
        by (unfold deadline_passed; cbn [on_compass compass uBit eventStartTime
              set_maxSample set_minSample set_sample]; now rewrite T)
  end.
  reflexivity.
Qed.

End Shapes.

(** ** Sessions *)

Lemma last_cons {A : Type} (a d : A) (l : list A) : last (a :: l) d = last l a.
Proof.
  revert a d. induction l as [| b l IH]; intros a d; [reflexivity |].
  change (last (a :: b :: l) d) with (last (b :: l) d).
  now rewrite (IH b d), (IH b a).
Qed.

Section Sessions.

Context {hdr : Header}.

Lemma poll_environment (p : Poll) (s : State) :
  let s' := on_uBit (environment (poll_ticks p) (poll_ready p) (poll_registers p)) s in
  compass s' = compass s /\
  int1 (uBit s') = poll_ready p /\
  registers (uBit s') = poll_registers p /\
  ticks (uBit s') = poll_ticks p /\
  events (uBit s') = events (uBit s).
Proof. now repeat split. Qed.

(** One quiet poll during a session. *)
Lemma poll_quiet (T : Z) (q : Poll) (s : State) :
  isCalibrating s <> 0 -> eventStartTime (compass s) = T -> quiet T q ->
  compass (poll q s) =
    (if poll_ready q
     then set_maxSample (sample_max (reading (poll_registers q)) (maxSample (compass s)))
            (set_minSample (sample_min (reading (poll_registers q)) (minSample (compass s)))
               (set_sample (reading (poll_registers q)) (compass s)))
     else compass s) /\
  events (uBit (poll q s)) = events (uBit s).
Proof.
  intros Hc He Hq. unfold poll.
  set (s' := on_uBit _ s).
  destruct (poll_ready q) eqn:Hr.
  - destruct (idleTick_shape s' eq_refl) as (d & (_ & Hev & _) & ->).
    cbv zeta.
    change (isCalibrating s') with (isCalibrating s).
    destruct (Z.eqb_spec (isCalibrating s) 0) as [E | _]; [contradiction |].
    cbn [negb].
    assert (Hd : deadline_passed s' = false).
    { unfold s', deadline_passed.
      cbn [on_uBit environment compass uBit ticks]. rewrite He.
      destruct Hq as [Hq | [Hq | Hq]].
      - congruence.
      - rewrite Hq. reflexivity.
      - apply andb_false_intro2. now apply Z.ltb_ge. }
    rewrite Hd. split; [reflexivity | exact Hev].
  - rewrite idleTick_not_ready by reflexivity. now split.
Qed.

(** A run of quiet polls during a session: status, deadline, offset and
    events stay, the sample is the last one read, the extents are
    widened by every sample read. *)
Lemma polls_quiet (T : Z) (ps : list Poll) (s : State) :
  isCalibrating s <> 0 -> eventStartTime (compass s) = T -> Forall (quiet T) ps ->
  let c := compass (polls ps s) in
  status c = status (compass s) /\
  eventStartTime c = T /\
  id c = id (compass s) /\
  average c = average (compass s) /\
  sample c = last (readings ps) (sample (compass s)) /\
  minSample c = widen_min (readings ps) (minSample (compass s)) /\
  maxSample c = widen_max (readings ps) (maxSample (compass s)) /\
  events (uBit (polls ps s)) = events (uBit s).
Proof.
  intros Hc He Hps. revert s Hc He.
  induction Hps as [| q ps Hq _ IH]; intros s Hc He; cbn [polls readings].
  - cbv zeta. now repeat split.
  - destruct (poll_quiet T q s Hc He Hq) as [Hcompass Hev].
    assert (Hc' : isCalibrating (poll q s) <> 0).
    { unfold isCalibrating. rewrite Hcompass. now destruct (poll_ready q). }
    assert (He' : eventStartTime (compass (poll q s)) = T).
    { rewrite Hcompass. now destruct (poll_ready q). }
    specialize (IH (poll q s) Hc' He'). cbv zeta in IH |- *.
    destruct IH as (I1 & I2 & I3 & I4 & I5 & I6 & I7 & I8).
    rewrite I1, I2, I3, I4, I5, I6, I7, I8, Hcompass, Hev.
    destruct (poll_ready q); cbn [status id average sample minSample maxSample
      set_maxSample set_minSample set_sample]; repeat split.
    now rewrite last_cons.
Qed.

End Sessions.

(** The poll that ends an asynchronous calibration: it takes its sample
    into the extents first, then clears the deadline and calls
    [calibrateEnd]. *)
Lemma poll_fires {hdr : Header} (T : Z) (p : Poll) (s : State) :
  isCalibrating s <> 0 -> eventStartTime (compass s) = T -> T <> 0 ->
  poll_ready p = true ->
  to_u32 (T + MICROBIT_COMPASS_CALIBRATE_PERIOD) < poll_ticks p ->
  exists d,
    events d = events (uBit s) /\
    poll p s =
    calibrateEnd
      (mkState
         (set_eventStartTime 0
            (set_maxSample (sample_max (reading (poll_registers p)) (maxSample (compass s)))
               (set_minSample (sample_min (reading (poll_registers p)) (minSample (compass s)))
                  (set_sample (reading (poll_registers p)) (compass s)))))
         d).
Proof.
  intros Hc He HT Hr Ht. unfold poll.
  set (s' := on_uBit _ s).
  assert (Hr' : int1 (uBit s') = true) by exact Hr.
  destruct (idleTick_shape s' Hr') as (d & (_ & Hev & _) & ->).
  exists d. split; [exact Hev |]. cbv zeta.
  change (isCalibrating s') with (isCalibrating s).
  destruct (Z.eqb_spec (isCalibrating s) 0) as [E | _]; [contradiction |].
  cbn [negb].
  assert (Hd : deadline_passed s' = true).
  { unfold s'. rewrite poll_deadline, He.
    apply andb_true_intro. split.
    - apply negb_true_iff. now apply Z.eqb_neq.
    - now apply Z.ltb_lt. }
  rewrite Hd. reflexivity.
Qed.

Lemma widen_min_app (vs : list CompassSample) (v start : CompassSample) :
  widen_min (vs ++ [v]) start = sample_min v (widen_min vs start).
Proof. unfold widen_min. now rewrite fold_left_app. Qed.

Lemma widen_max_app (vs : list CompassSample) (v start : CompassSample) :
  widen_max (vs ++ [v]) start = sample_max v (widen_max vs start).
Proof. unfold widen_max. now rewrite fold_left_app. Qed.

Lemma readings_app {hdr : Header} (ps qs : list Poll) :
  readings (ps ++ qs) = readings ps ++ readings qs.
Proof.
  induction ps as [| p ps IH]; [reflexivity |].
  cbn [app readings]. destruct (poll_ready p); cbn [app]; now rewrite IH.
Qed.

(** X1.  A calibration by hand, from start to end.  On a compass that is
    not calibrating and has no deadline set, [calibrateStart], any polls
    and [calibrateEnd] give as offset the midpoint, axis by axis, of the
    smallest and the largest value among the sample held at the start
    and the samples read by the polls that found data ready.  No poll
    ends such a session, however late; the two events raised are the
    start and the end of the calibration. *)
Theorem manual_session_offset {hdr : Header} (s : State) (ps : list Poll) :
  flags_wf ->
  isCalibrating s = 0 ->
  eventStartTime (compass s) = 0 ->
  let s1 := polls ps (calibrateStart s) in
  let s2 := calibrateEnd s1 in
  let lo := widen_min (readings ps) (sample (compass s)) in
  let hi := widen_max (readings ps) (sample (compass s)) in
  isCalibrating s1 <> 0 /\
  minSample (compass s1) = lo /\
  maxSample (compass s1) = hi /\
  average (compass s2) =
    mkSample (midpoint (x hi) (x lo)) (midpoint (y hi) (y lo)) (midpoint (z hi) (z lo)) /\
  isCalibrating s2 = 0 /\ isCalibrated s2 <> 0 /\
  events (uBit s2) =
    events (uBit s) ++ [(id (compass s), MICROBIT_COMPASS_EVT_CAL_START);
                        (id (compass s), MICROBIT_COMPASS_EVT_CAL_END)].
Proof.
  intros Hwf Hc He s1 s2 lo hi.
  assert (Hc0 : isCalibrating (calibrateStart s) <> 0)
    by now apply calibrateStart_isCalibrating.
  assert (He0 : eventStartTime (compass (calibrateStart s)) = 0)
    by now rewrite calibrateStart_eventStartTime.
  assert (Hq : Forall (quiet 0) ps).
  { apply Forall_forall. intros q _. right. now left. }
  pose proof (polls_quiet 0 ps (calibrateStart s) Hc0 He0 Hq) as H.
  cbv zeta in H. fold s1 in H.
  destruct H as (Hst & _ & Hid & _ & _ & Hmin & Hmax & Hev).
  rewrite (calibrateStart_fresh s Hc) in Hst, Hid, Hmin, Hmax, Hev.
  cbn [compass uBit status id minSample maxSample set_maxSample set_minSample
       raise_flag set_status MicroBitEvent events] in Hst, Hid, Hmin, Hmax, Hev.
  fold lo in Hmin. fold hi in Hmax.
  split.
  { unfold isCalibrating. rewrite Hst. apply flag_nonzero_set. apply Hwf. }
  split; [exact Hmin |]. split; [exact Hmax |].
  unfold s2. split; [now rewrite calibrateEnd_average, Hmin, Hmax |].
  split; [now apply calibrateEnd_isCalibrating |].
  split.
  { rewrite calibrateEnd_isCalibrated by exact Hwf. destruct Hwf as (Hd & _). lia. }
  rewrite calibrateEnd_events, Hev, Hid, <- app_assoc. reflexivity.
Qed.

(** Two readings, (7, 0, 0) and (-4, -1, -1), and between them a poll
    without data a million ticks later: the offset is (1, 0, 0). *)
Lemma manual_session_offset_witness :
  let ps := [mkPoll 10 true (sensor 0 2 7);
             mkPoll 1000000 false (sensor 0 2 99);
             mkPoll 1000001 true (sensor 255 2 252)] in
  let s2 := @calibrateEnd mag3110 (@polls mag3110 ps (@calibrateStart mag3110 blank_compass)) in
  average (compass s2) = mkSample 1 0 0 /\
  events (uBit s2) = [(27, 2); (27, 3)].
Proof.
  intros ps.
  assert (Hwf : @flags_wf mag3110) by header_facts.
  assert (Hc : @isCalibrating mag3110 blank_compass = 0) by (vm_compute; reflexivity).
  assert (He : eventStartTime (compass blank_compass) = 0) by (vm_compute; reflexivity).
  destruct (@manual_session_offset mag3110 blank_compass ps Hwf Hc He)
    as (_ & _ & _ & Ha & _ & _ & Hev).
  split.
  - rewrite Ha. vm_compute. reflexivity.
  - rewrite Hev. vm_compute. reflexivity.
Defined.

(** X2.  An asynchronous calibration, from start to end.  After
    [calibrateAsync] at a tick [T] other than zero on a compass that is
    not calibrating, and polls that are all quiet, the first poll that
    finds data ready at a tick past the deadline ends the calibration,
    and its own sample counts: the offset is the midpoint of the
    smallest and largest value among the sample held at the start and
    all samples read, the last one included.  The deadline is cleared
    and the two events raised are start and end. *)
Theorem async_session_offset {hdr : Header} (s0 : State) (ps : list Poll) (p : Poll) :
  flags_wf ->
  isCalibrating s0 = 0 ->
  ticks (uBit s0) <> 0 ->
  Forall (quiet (ticks (uBit s0))) ps ->
  poll_ready p = true ->
  to_u32 (ticks (uBit s0) + MICROBIT_COMPASS_CALIBRATE_PERIOD) < poll_ticks p ->
  let s2 := poll p (polls ps (calibrateAsync s0)) in
  let lo := widen_min (readings (ps ++ [p])) (sample (compass s0)) in
  let hi := widen_max (readings (ps ++ [p])) (sample (compass s0)) in
  sample (compass s2) = reading (poll_registers p) /\
  minSample (compass s2) = lo /\
  maxSample (compass s2) = hi /\
  average (compass s2) =
    mkSample (midpoint (x hi) (x lo)) (midpoint (y hi) (y lo)) (midpoint (z hi) (z lo)) /\
  isCalibrating s2 = 0 /\ isCalibrated s2 <> 0 /\
  eventStartTime (compass s2) = 0 /\
  events (uBit s2) =
    events (uBit s0) ++ [(id (compass s0), MICROBIT_COMPASS_EVT_CAL_START);
                         (id (compass s0), MICROBIT_COMPASS_EVT_CAL_END)].
Proof.
  intros Hwf Hc HT Hps Hr Ht. cbv zeta.
  set (T := ticks (uBit s0)) in *.
  set (sa := calibrateAsync s0).
  assert (Hsa : sa = calibrateStart (on_compass (set_eventStartTime T) s0)) by reflexivity.
  rewrite calibrateStart_fresh in Hsa by exact Hc.
  assert (Hc0 : isCalibrating sa <> 0) by now apply calibrateAsync_isCalibrating.
  assert (He0 : eventStartTime (compass sa) = T) by apply calibrateAsync_eventStartTime.
  pose proof (polls_quiet T ps sa Hc0 He0 Hps) as H. cbv zeta in H.
  set (s1 := polls ps sa) in *.
  destruct H as (Hst & He1 & Hid & _ & _ & Hmin & Hmax & Hev).
  assert (Hc1 : isCalibrating s1 <> 0).
  { unfold isCalibrating. rewrite Hst. exact Hc0. }
  destruct (poll_fires T p s1 Hc1 He1 HT Hr Ht) as (d & Hd & Hp).
  rewrite Hp.
  rewrite readings_app. cbn [readings]. rewrite Hr.
  rewrite widen_min_app, widen_max_app.
  rewrite Hsa in Hmin, Hmax, Hev, Hid.
  cbn [compass uBit on_compass minSample maxSample id sample set_maxSample
       set_minSample set_eventStartTime raise_flag set_status MicroBitEvent events]
    in Hmin, Hmax, Hev, Hid.
  rewrite calibrateEnd_average.
  split; [reflexivity |].
  split; [cbn; now rewrite Hmin |].
  split; [cbn; now rewrite Hmax |].
  split.
  { cbn [compass maxSample minSample set_eventStartTime set_maxSample set_minSample].
    now rewrite Hmin, Hmax. }
  split; [now apply calibrateEnd_isCalibrating |].
  split.
  { rewrite calibrateEnd_isCalibrated by exact Hwf. destruct Hwf as (Hf & _). lia. }
  split; [reflexivity |].
  rewrite calibrateEnd_events. cbn [compass uBit id set_eventStartTime set_maxSample
    set_minSample set_sample].
  rewrite Hd, Hev, Hid, <- app_assoc. reflexivity.
Qed.

(** Started at tick 5 with a period of 10000: a reading (7, 0, 0) at
    tick 10005 is quiet, the reading (-4, -1, -1) at tick 10006 ends the
    calibration and is part of the offset (1, 0, 0). *)
Lemma async_session_offset_witness :
  let ps := [mkPoll 10005 true (sensor 0 2 7)] in
  let p := mkPoll 10006 true (sensor 255 2 252) in
  let s2 := @poll mag3110 p (@polls mag3110 ps (@calibrateAsync mag3110 blank_compass)) in
  average (compass s2) = mkSample 1 0 0 /\
  @isCalibrating mag3110 s2 = 0 /\
  events (uBit s2) = [(27, 2); (27, 3)].
Proof.
  intros ps p.
  assert (Hwf : @flags_wf mag3110) by header_facts.
  assert (Hc : @isCalibrating mag3110 blank_compass = 0) by (vm_compute; reflexivity).
  assert (HT : ticks (uBit blank_compass) <> 0) by (vm_compute; discriminate).
  assert (Hps : Forall (@quiet mag3110 (ticks (uBit blank_compass))) ps).
  { apply Forall_cons; [| apply Forall_nil].
    right. right. vm_compute. intro. discriminate. }
  assert (Hr : poll_ready p = true) by reflexivity.
  assert (Ht : to_u32 (ticks (uBit blank_compass)
                       + @MICROBIT_COMPASS_CALIBRATE_PERIOD mag3110) < poll_ticks p)
    by (vm_compute; reflexivity).
  destruct (@async_session_offset mag3110 blank_compass ps p Hwf Hc HT Hps Hr Ht)
    as (_ & _ & _ & Ha & Hg & _ & _ & Hev).
  split; [rewrite Ha; vm_compute; reflexivity |].
  split; [exact Hg |].
  rewrite Hev. vm_compute. reflexivity.
Defined.

(** X3.  When the tick counter is so close to its wrap that start plus
    period passes [2^32], the deadline [idleTick] computes has wrapped
    to a tick before the start: the first poll that finds data ready,
    even at the tick of [calibrateAsync] itself, ends the
    calibration. *)
Theorem deadline_wraps {hdr : Header} (s0 : State) (p : Poll) :
  flags_wf ->
  0 < ticks (uBit s0) < 2 ^ 32 ->
  0 <= MICROBIT_COMPASS_CALIBRATE_PERIOD < 2 ^ 32 ->
  2 ^ 32 <= ticks (uBit s0) + MICROBIT_COMPASS_CALIBRATE_PERIOD ->
  poll_ready p = true ->
  ticks (uBit s0) <= poll_ticks p ->
  let s2 := poll p (calibrateAsync s0) in
  isCalibrating s2 = 0 /\ isCalibrated s2 <> 0 /\ eventStartTime (compass s2) = 0.
Proof.
  intros Hwf HT HW Hwrap Hr Ht s2.
  assert (Hc0 : isCalibrating (calibrateAsync s0) <> 0)
    by now apply calibrateAsync_isCalibrating.
  assert (He0 : eventStartTime (compass (calibrateAsync s0)) = ticks (uBit s0))
    by apply calibrateAsync_eventStartTime.
  assert (Hd : to_u32 (ticks (uBit s0) + MICROBIT_COMPASS_CALIBRATE_PERIOD)
               < poll_ticks p).
  { unfold to_u32.
    replace (ticks (uBit s0) + MICROBIT_COMPASS_CALIBRATE_PERIOD)
      with (ticks (uBit s0) + MICROBIT_COMPASS_CALIBRATE_PERIOD - 2 ^ 32 + 1 * 2 ^ 32)
      by lia.
    rewrite Z.mod_add by lia. rewrite Z.mod_small by lia. lia. }
  destruct (poll_fires _ p _ Hc0 He0 ltac:(lia) Hr Hd) as (d & _ & Hp).
  unfold s2. rewrite Hp.
  split; [now apply calibrateEnd_isCalibrating |].
  split; [| reflexivity].
  rewrite calibrateEnd_isCalibrated by exact Hwf. destruct Hwf as (Hf & _). lia.
Qed.

(** Started 5000 ticks before the wrap, polled at the same tick. *)
Lemma deadline_wraps_witness :
  let s0 := @constructor mag3110 27 14 (power_on (fun _ => 0) (2 ^ 32 - 5000)) in
  let s2 := @poll mag3110 (mkPoll (2 ^ 32 - 5000) true (fun _ => 0))
              (@calibrateAsync mag3110 s0) in
  @isCalibrating mag3110 s2 = 0 /\ @isCalibrated mag3110 s2 <> 0 /\
  eventStartTime (compass s2) = 0.
Proof.
  intros s0.
  refine (@deadline_wraps mag3110 s0 (mkPoll (2 ^ 32 - 5000) true (fun _ => 0))
            _ _ _ _ _ _).
  - header_facts.
  - vm_compute. split; reflexivity.
  - vm_compute. split; [intro; discriminate | reflexivity].
  - vm_compute. intro; discriminate.
  - reflexivity.
  - vm_compute. intro; discriminate.
Defined.

(** ** What every run keeps *)

Lemma sample_ok_min (a b : CompassSample) :
  sample_ok a -> sample_ok b -> sample_ok (sample_min a b).
Proof. unfold sample_ok, sample_min, in_s16. cbn [x y z]. lia. Qed.

Lemma sample_ok_max (a b : CompassSample) :
  sample_ok a -> sample_ok b -> sample_ok (sample_max a b).
Proof. unfold sample_ok, sample_max, in_s16. cbn [x y z]. lia. Qed.

Lemma sample_min_le_max (v lo hi : CompassSample) :
  sample_le (sample_min v lo) (sample_max v hi).
Proof. unfold sample_le, sample_min, sample_max. cbn [x y z]. lia. Qed.

Lemma sample_le_refl (v : CompassSample) : sample_le v v.
Proof. unfold sample_le. lia. Qed.

Lemma reading_ok {hdr : Header} (regs : Z -> Z) : sample_ok (reading regs).
Proof. unfold sample_ok, reading. cbn [x y z]. repeat split; apply register16_range. Qed.

Lemma midpoints_ok (hi lo : CompassSample) :
  sample_ok (mkSample (midpoint (x hi) (x lo)) (midpoint (y hi) (y lo))
                      (midpoint (z hi) (z lo))).
Proof. unfold sample_ok. cbn [x y z]. repeat split; apply midpoint_in_s16. Qed.

Section Runs.

Context {hdr : Header}.

Variable bearing_to_heading : Z -> Z -> Z.

Lemma calibrateEnd_samples_wf (s : State) :
  samples_wf (compass s) -> samples_wf (compass (calibrateEnd s)).
Proof.
  intros (Hs & _ & Hlo & Hhi & Hle). rewrite calibrateEnd_compass.
  repeat split; try assumption; try apply Hs; try apply Hlo; try apply Hhi;
    try apply Hle; apply midpoint_in_s16.
Qed.

Lemma calibrateStart_samples_wf (s : State) :
  samples_wf (compass s) -> samples_wf (compass (calibrateStart s)).
Proof.
  intros Hwf.
  destruct (Z.eq_dec (isCalibrating s) 0) as [E | E].
  - rewrite calibrateStart_fresh by exact E.
    destruct Hwf as (Hs & Ha & _). cbn [compass].
    split; [exact Hs |]. split; [exact Ha |]. split; [exact Hs |].
    split; [exact Hs |]. apply sample_le_refl.
  - now rewrite calibrateStart_guard.
Qed.

Lemma idleTick_samples_wf (s : State) :
  samples_wf (compass s) -> samples_wf (compass (idleTick s)).
Proof.
  intros Hwf.
  destruct (int1 (uBit s)) eqn:Hr; [| now rewrite idleTick_not_ready].
  destruct (idleTick_shape s Hr) as (d & _ & ->). cbv zeta.
  destruct Hwf as (Hs & Ha & Hlo & Hhi & Hle).
  pose proof (reading_ok (registers (uBit s))) as Hv.
  assert (Hc : samples_wf
                 (set_maxSample (sample_max (reading (registers (uBit s)))
                                            (maxSample (compass s)))
                    (set_minSample (sample_min (reading (registers (uBit s)))
                                               (minSample (compass s)))
                       (set_sample (reading (registers (uBit s))) (compass s))))).
  { split; [exact Hv |]. split; [exact Ha |].
    split; [now apply sample_ok_min |]. split; [now apply sample_ok_max |].
    apply sample_min_le_max. }
  destruct (negb (isCalibrating s =? 0)).
  - destruct (deadline_passed s).
    + apply calibrateEnd_samples_wf. exact Hc.
    + exact Hc.
  - split; [exact Hv |]. split; [exact Ha |]. split; [exact Hlo |].
    split; [exact Hhi | exact Hle].
Qed.

Lemma call_samples_wf (c : Call) (s : State) :
  samples_wf (compass s) -> samples_wf (compass (call bearing_to_heading c s)).
Proof.
  intros Hwf. destruct c; cbn [call].
  - exact Hwf.
  - now apply idleTick_samples_wf.
  - now apply calibrateStart_samples_wf.
  - unfold calibrateAsync. apply calibrateStart_samples_wf. exact Hwf.
  - now apply calibrateEnd_samples_wf.
  - rewrite clearCalibration_compass. exact Hwf.
  - now rewrite heading_compass.
  - exact Hwf.
Qed.

Lemma constructor_samples_wf (id0 addr : Z) (d : Device) :
  samples_wf (compass (constructor id0 addr d)).
Proof.
  pose proof (constructor_compass id0 addr d) as Hc. cbv zeta in Hc. rewrite Hc.
  assert (Hz : sample_ok zero_sample) by (unfold sample_ok, in_s16; cbn; lia).
  destruct (_ && _); (split; [exact Hz |]); (split; [| split; [exact Hz |
    split; [exact Hz | apply sample_le_refl]]]);
    unfold sample_ok; cbn [average set_average clear_flag set_status x y z];
    repeat split; apply register16_range.
Qed.

End Runs.

(** X4.  Whatever is done with a compass after its construction (polls
    in any environment and calls in any order), the sample, the offset
    and both extents stay within the range of [int16_t], and the minimum
    extent is at most the maximum extent on every axis. *)
Theorem run_keeps_samples {hdr : Header} (bearing_to_heading : Z -> Z -> Z)
    (id0 addr : Z) (d : Device) (cs : list Call) :
  samples_wf (compass (calls bearing_to_heading cs (constructor id0 addr d))).
Proof.
  generalize (constructor_samples_wf id0 addr d).
  generalize (constructor id0 addr d). 
  induction cs as [| c cs IH]; intros s Hs; cbn [calls].
  - exact Hs.
  - apply IH. now apply call_samples_wf.
Qed.

(** X5.  With ordered extents within [int16_t], the offset that
    [calibrateEnd] stores lies between the minimum and the maximum
    extent on every axis. *)
Theorem calibrateEnd_between {hdr : Header} (s : State) :
  samples_wf (compass s) ->
  sample_le (minSample (compass s)) (average (compass (calibrateEnd s))) /\
  sample_le (average (compass (calibrateEnd s))) (maxSample (compass s)).
Proof.
  intros (_ & _ & (Lx & Ly & Lz) & (Hx & Hy & Hz) & (Ex & Ey & Ez)).
  rewrite calibrateEnd_average. unfold sample_le. cbn [x y z].
  rewrite !midpoint_quot by assumption.
  unfold in_s16 in *.
  repeat split; Z.to_euclidean_division_equations; lia.
Qed.

(** Extents from (-3, -3, 10) to (-2, 0, 20): the offset (-2, -1, 15). *)
Lemma calibrateEnd_between_witness :
  let c := mkCompass 27 14 0 (mkSample (-3) (-3) 10) (mkSample (-2) 0 20)
                     zero_sample zero_sample 2 in
  let s := mkState c (power_on (fun _ => 0) 5) in
  average (compass (@calibrateEnd mag3110 s)) = mkSample (-2) (-1) 15 /\
  sample_le (minSample c) (average (compass (@calibrateEnd mag3110 s))) /\
  sample_le (average (compass (@calibrateEnd mag3110 s))) (maxSample c).
Proof.
  intros c s. split; [reflexivity |].
  apply (@calibrateEnd_between mag3110 s).
  unfold samples_wf, sample_ok, sample_le, in_s16. cbn. lia.
Defined.

(** ** Identity and events *)

Section Events.

Context {hdr : Header}.

Variable bearing_to_heading : Z -> Z -> Z.

Lemma compass_event_start (i : Z) : compass_event i (i, MICROBIT_COMPASS_EVT_CAL_START).
Proof. split; [reflexivity | right; now left]. Qed.

Lemma compass_event_end (i : Z) : compass_event i (i, MICROBIT_COMPASS_EVT_CAL_END).
Proof. split; [reflexivity | right; now right]. Qed.

Lemma compass_event_required (i : Z) :
  compass_event i (i, MICROBIT_COMPASS_EVT_CAL_REQUIRED).
Proof. split; [reflexivity | now left]. Qed.

(** One step keeps the identity and raises at most one event, which is
    one of the compass's own. *)
Lemma call_identity (c : Call) (s : State) :
  id (compass (call bearing_to_heading c s)) = id (compass s) /\
  address (compass (call bearing_to_heading c s)) = address (compass s) /\
  exists es,
    events (uBit (call bearing_to_heading c s)) = events (uBit s) ++ es /\
    Forall (compass_event (id (compass s))) es.
Proof.
  assert (Hnone : forall s' : State,
            events (uBit s') = events (uBit s) ->
            exists es, events (uBit s') = events (uBit s) ++ es /\
                       Forall (compass_event (id (compass s))) es).
  { intros s' E. exists []. rewrite app_nil_r. now split. }
  assert (Hstart : forall s0 : State,
            id (compass (calibrateStart s0)) = id (compass s0) /\
            address (compass (calibrateStart s0)) = address (compass s0) /\
            exists es, events (uBit (calibrateStart s0)) = events (uBit s0) ++ es /\
                       Forall (compass_event (id (compass s0))) es).
  { intros s0. destruct (Z.eq_dec (isCalibrating s0) 0) as [E | E].
    - rewrite calibrateStart_fresh by exact E. repeat split.
      eexists. split; [reflexivity |].
      apply Forall_cons; [apply compass_event_start | apply Forall_nil].
    - rewrite calibrateStart_guard by exact E. repeat split.
      exists []. rewrite app_nil_r. now split. }
  destruct c; cbn [call].
  - repeat split. now apply Hnone.
  - destruct (int1 (uBit s)) eqn:Hr.
    + destruct (idleTick_shape s Hr) as (d & (_ & Hev & _) & ->). cbv zeta.
      destruct (negb (isCalibrating s =? 0)); [destruct (deadline_passed s) |].
      * repeat split. eexists. rewrite calibrateEnd_events. cbn [uBit compass].
        rewrite Hev. split; [reflexivity |].
        apply Forall_cons; [apply compass_event_end | apply Forall_nil].
      * repeat split. now apply Hnone.
      * repeat split. now apply Hnone.
    + rewrite idleTick_not_ready by exact Hr. repeat split. now apply Hnone.
  - apply Hstart.
  - apply (Hstart (on_compass (set_eventStartTime (ticks (uBit s))) s)).
  - repeat split. eexists. rewrite calibrateEnd_events. split; [reflexivity |].
    apply Forall_cons; [apply compass_event_end | apply Forall_nil].
  - repeat split. now apply Hnone.
  - rewrite heading_compass. repeat split. unfold heading.
    destruct (negb (isCalibrating s =? 0)); [now apply Hnone |].
    destruct (isCalibrated s =? 0); [| now apply Hnone].
    eexists. split; [reflexivity |].
    apply Forall_cons; [apply compass_event_required | apply Forall_nil].
  - repeat split. now apply Hnone.
Qed.

End Events.

(** X6.  Over any run, the event source id and the bus address of the
    compass never change, events are only added to those raised before,
    and every event added carries the compass's id and is one of
    calibration-required, calibration-start and calibration-end. *)
Theorem run_keeps_identity {hdr : Header} (bearing_to_heading : Z -> Z -> Z)
    (cs : list Call) (s : State) :
  let s' := calls bearing_to_heading cs s in
  id (compass s') = id (compass s) /\
  address (compass s') = address (compass s) /\
  exists es,
    events (uBit s') = events (uBit s) ++ es /\
    Forall (compass_event (id (compass s))) es.
Proof.
  cbv zeta. revert s. induction cs as [| c cs IH]; intros s; cbn [calls].
  - repeat split. exists []. rewrite app_nil_r. now split.
  - destruct (call_identity bearing_to_heading c s) as (Hi & Ha & es1 & He1 & Hf1).
    destruct (IH (call bearing_to_heading c s)) as (Hi' & Ha' & es2 & He2 & Hf2).
    split; [congruence |]. split; [congruence |].
    exists (es1 ++ es2). split.
    + rewrite He2, He1. now rewrite app_assoc.
    + apply Forall_app. split; [exact Hf1 |]. now rewrite <- Hi.
Qed.

(** ** Sampling *)

(** X7.  When [isIdleCallbackNeeded] returns zero (the data-ready line
    is low) a poll changes nothing.  When it returns non-zero a poll
    replaces the whole sample by the three
    values held in the data registers, in every calibration state;
    [getX], [getY] and [getZ] then return exactly these raw values,
    whatever the offset.  Outside a calibration nothing else in the
    compass object changes, no event is raised and no register is
    written. *)
Theorem idleTick_sample {hdr : Header} (s : State) :
  (isIdleCallbackNeeded s = 0 -> idleTick s = s) /\
  (isIdleCallbackNeeded s <> 0 ->
   sample (compass (idleTick s)) = reading (registers (uBit s)) /\
   getX (idleTick s) = register16 (registers (uBit s)) MAG_OUT_X_MSB /\
   getY (idleTick s) = register16 (registers (uBit s)) MAG_OUT_Y_MSB /\
   getZ (idleTick s) = register16 (registers (uBit s)) MAG_OUT_Z_MSB /\
   (isCalibrating s = 0 ->
    compass (idleTick s) = set_sample (reading (registers (uBit s))) (compass s) /\
    events (uBit (idleTick s)) = events (uBit s) /\
    registers (uBit (idleTick s)) = registers (uBit s))).
Proof.
  unfold isIdleCallbackNeeded.
  split; [intros Hn; apply idleTick_not_ready; destruct (int1 (uBit s));
          [discriminate | reflexivity] |].
  intros Hn.
  assert (Hr : int1 (uBit s) = true)
    by (destruct (int1 (uBit s)); [reflexivity | contradiction]).
  clear Hn.
  destruct (idleTick_shape s Hr) as (d & (Hreg & Hev & _) & Hs).
  assert (Hsample : sample (compass (idleTick s)) = reading (registers (uBit s))).
  { rewrite Hs. cbv zeta.
    destruct (negb (isCalibrating s =? 0)); [destruct (deadline_passed s) |];
      reflexivity. }
  split; [exact Hsample |].
  unfold getX, getY, getZ. rewrite Hsample.
  split; [reflexivity |]. split; [reflexivity |]. split; [reflexivity |].
  intros Hc. rewrite Hs. cbv zeta. rewrite Hc. cbn [Z.eqb negb compass uBit].
  now repeat split.
Qed.

(** A calibrated compass with offset (100, 0, 0) reads (7, 0, 0) from
    the sensor: [getX] is 7. *)
Lemma idleTick_sample_witness :
  let s := on_uBit (environment 6 true (sensor 0 2 7)) stored_compass in
  x (average (compass s)) = 100 /\
  getX (@idleTick mag3110 s) = 7 /\
  registers (uBit (@idleTick mag3110 s)) = registers (uBit s).
Proof.
  intros s.
  assert (Hr : isIdleCallbackNeeded s <> 0) by (vm_compute; discriminate).
  assert (Hc : @isCalibrating mag3110 s = 0) by (vm_compute; reflexivity).
  destruct (proj2 (@idleTick_sample mag3110 s) Hr) as (_ & Hx & _ & _ & Hout).
  destruct (Hout Hc) as (_ & _ & Hreg).
  split; [vm_compute; reflexivity |].
  split; [rewrite Hx; vm_compute; reflexivity | exact Hreg].
Defined.

(** ** Offsets across a restart *)

Section Restart.

Context {hdr : Header}.

Hypothesis Hmap : register_map_wf.

(** The registers of a well-formed map are bytes and pairwise apart. *)
Lemma register_map_facts :
  (0 <= MAG_OFF_X_MSB /\ MAG_OFF_X_LSB = MAG_OFF_X_MSB + 1 /\ MAG_OFF_X_LSB < 256) /\
  (0 <= MAG_OFF_Y_MSB /\ MAG_OFF_Y_LSB = MAG_OFF_Y_MSB + 1 /\ MAG_OFF_Y_LSB < 256) /\
  (0 <= MAG_OFF_Z_MSB /\ MAG_OFF_Z_LSB = MAG_OFF_Z_MSB + 1 /\ MAG_OFF_Z_LSB < 256) /\
  (MAG_OFF_X_MSB <> MAG_OFF_Y_MSB /\ MAG_OFF_X_MSB <> MAG_OFF_Y_LSB /\
   MAG_OFF_X_LSB <> MAG_OFF_Y_MSB /\ MAG_OFF_X_LSB <> MAG_OFF_Y_LSB /\
   MAG_OFF_X_MSB <> MAG_OFF_Z_MSB /\ MAG_OFF_X_MSB <> MAG_OFF_Z_LSB /\
   MAG_OFF_X_LSB <> MAG_OFF_Z_MSB /\ MAG_OFF_X_LSB <> MAG_OFF_Z_LSB /\
   MAG_OFF_Y_MSB <> MAG_OFF_Z_MSB /\ MAG_OFF_Y_MSB <> MAG_OFF_Z_LSB /\
   MAG_OFF_Y_LSB <> MAG_OFF_Z_MSB /\ MAG_OFF_Y_LSB <> MAG_OFF_Z_LSB) /\
  (0 <= MAG_CTRL_REG1 < 256 /\ 0 <= MAG_CTRL_REG2 < 256) /\
  (forall r, In r offset_registers -> MAG_CTRL_REG1 <> r /\ MAG_CTRL_REG2 <> r).
Proof.
  destruct Hmap as (HX & HY & HZ & Hnd & (H1 & Hn1) & (H2 & Hn2)).
  split; [exact HX |]. split; [exact HY |]. split; [exact HZ |].
  split.
  { unfold offset_registers in Hnd.
    repeat match goal with
           | H : NoDup (_ :: _) |- _ => apply NoDup_cons_iff in H; destruct H
           end.
    repeat split; intros E;
      match goal with
      | H : ~ In _ _ |- _ =>
          solve [apply H; cbn [In]; first [rewrite E | rewrite <- E]; auto 10]
      end. }
  split; [now split |].
  intros r Hr. split; intros E; subst r; contradiction.
Qed.

(** Reading a register pair that holds the two bytes of a value. *)
Lemma register16_pair (regs : Z -> Z) (msb lsb v : Z) :
  0 <= msb /\ lsb = msb + 1 /\ lsb < 256 -> in_s16 v ->
  regs msb = to_u8 (Z.shiftr v 8) -> regs lsb = to_u8 v ->
  register16 regs msb = v.
Proof.
  intros (H0 & -> & H1) Hv Hhi Hlo. unfold register16.
  rewrite (to_u8_small msb) by lia. rewrite (to_u8_small (msb + 1)) by lia.
  rewrite Hhi, Hlo. now apply join_bytes.
Qed.

Lemma restart_compass (s : State) :
  let regs := store (to_u8 MAG_CTRL_REG1) 97
                (store (to_u8 MAG_CTRL_REG2) 160 (registers (uBit s))) in
  let avg := mkSample (register16 regs MAG_OFF_X_MSB)
                      (register16 regs MAG_OFF_Y_MSB)
                      (register16 regs MAG_OFF_Z_MSB) in
  compass (restart s) =
  if (x avg =? 0) && (y avg =? 0) && (z avg =? 0)
  then clear_flag MICROBIT_COMPASS_STATUS_CALIBRATED
         (set_average avg (fresh (to_u16 (id (compass s))) (to_u16 (address (compass s)))))
  else set_average avg (fresh (to_u16 (id (compass s))) (to_u16 (address (compass s)))).
Proof.
  intros regs avg. subst regs avg. unfold restart.
  pose proof (constructor_compass (id (compass s)) (address (compass s)) (uBit s)) as H.
  cbv zeta in H. exact H.
Qed.

(** The register file a restart reads from, with the register numbers
    as they are. *)
Lemma restart_registers (m : Z -> Z) :
  store (to_u8 MAG_CTRL_REG1) 97 (store (to_u8 MAG_CTRL_REG2) 160 m) =
  store MAG_CTRL_REG1 97 (store MAG_CTRL_REG2 160 m).
Proof.
  destruct register_map_facts as (_ & _ & _ & _ & (C1 & C2) & _).
  now rewrite !to_u8_small by assumption.
Qed.

Lemma offset_registers_small :
  to_u8 MAG_OFF_X_MSB = MAG_OFF_X_MSB /\ to_u8 MAG_OFF_X_LSB = MAG_OFF_X_LSB /\
  to_u8 MAG_OFF_Y_MSB = MAG_OFF_Y_MSB /\ to_u8 MAG_OFF_Y_LSB = MAG_OFF_Y_LSB /\
  to_u8 MAG_OFF_Z_MSB = MAG_OFF_Z_MSB /\ to_u8 MAG_OFF_Z_LSB = MAG_OFF_Z_LSB.
Proof.
  destruct register_map_facts as (HX & HY & HZ & _).
  repeat split; apply to_u8_small; lia.
Qed.

Ltac apart := solve [assumption | apply not_eq_sym; assumption].

Lemma restart_after_calibrateEnd (s : State) :
  let regs := store (to_u8 MAG_CTRL_REG1) 97
                (store (to_u8 MAG_CTRL_REG2) 160 (registers (uBit (calibrateEnd s)))) in
  mkSample (register16 regs MAG_OFF_X_MSB) (register16 regs MAG_OFF_Y_MSB)
           (register16 regs MAG_OFF_Z_MSB) = average (compass (calibrateEnd s)).
Proof.
  intros regs. unfold regs. clear regs.
  rewrite restart_registers, calibrateEnd_registers. cbv zeta.
  destruct offset_registers_small as (-> & -> & -> & -> & -> & ->).
  assert (Hok : sample_ok (average (compass (calibrateEnd s))))
    by (rewrite calibrateEnd_average; apply midpoints_ok).
  destruct Hok as (Ox & Oy & Oz).
  destruct (average (compass (calibrateEnd s))) as [ax ay az].
  cbn [x y z] in *.
  destruct register_map_facts as (HX & HY & HZ & Hd & _ & Hc).
  pose proof (Hc MAG_OFF_X_MSB ltac:(unfold offset_registers; cbn [In]; auto 10)) as (? & ?).
  pose proof (Hc MAG_OFF_X_LSB ltac:(unfold offset_registers; cbn [In]; auto 10)) as (? & ?).
  pose proof (Hc MAG_OFF_Y_MSB ltac:(unfold offset_registers; cbn [In]; auto 10)) as (? & ?).
  pose proof (Hc MAG_OFF_Y_LSB ltac:(unfold offset_registers; cbn [In]; auto 10)) as (? & ?).
  pose proof (Hc MAG_OFF_Z_MSB ltac:(unfold offset_registers; cbn [In]; auto 10)) as (? & ?).
  pose proof (Hc MAG_OFF_Z_LSB ltac:(unfold offset_registers; cbn [In]; auto 10)) as (? & ?).
  assert (Nx : MAG_OFF_X_MSB <> MAG_OFF_X_LSB) by (clear - HX; lia).
  assert (Ny : MAG_OFF_Y_MSB <> MAG_OFF_Y_LSB) by (clear - HY; lia).
  assert (Nz : MAG_OFF_Z_MSB <> MAG_OFF_Z_LSB) by (clear - HZ; lia).
  destruct Hd as (? & ? & ? & ? & ? & ? & ? & ? & ? & ? & ? & ?).
  f_equal.
  - apply (register16_pair _ _ MAG_OFF_X_LSB); [exact HX | exact Ox | |];
      rewrite ?store_miss by apart; apply store_hit.
  - apply (register16_pair _ _ MAG_OFF_Y_LSB); [exact HY | exact Oy | |];
      rewrite ?store_miss by apart; apply store_hit.
  - apply (register16_pair _ _ MAG_OFF_Z_LSB); [exact HZ | exact Oz | |];
      rewrite ?store_miss by apart; apply store_hit.
Qed.

Lemma restart_after_clearCalibration (s : State) :
  let regs := store (to_u8 MAG_CTRL_REG1) 97
                (store (to_u8 MAG_CTRL_REG2) 160
                   (registers (uBit (clearCalibration s)))) in
  mkSample (register16 regs MAG_OFF_X_MSB) (register16 regs MAG_OFF_Y_MSB)
           (register16 regs MAG_OFF_Z_MSB) = zero_sample.
Proof.
  intros regs. unfold regs. clear regs. rewrite restart_registers.
  destruct register_map_facts as (HX & HY & HZ & _ & _ & Hc).
  destruct offset_registers_small as (SXm & SXl & SYm & SYl & SZm & SZl).
  assert (Hz : forall r, In r offset_registers -> to_u8 r = r ->
               store MAG_CTRL_REG1 97
                 (store MAG_CTRL_REG2 160 (registers (uBit (clearCalibration s)))) r = 0).
  { intros r Hr Hb. destruct (Hc r Hr) as (N1 & N2).
    rewrite !store_miss by apart.
    rewrite <- Hb. now apply clearCalibration_zeroes. }
  assert (H0 : in_s16 0) by (unfold in_s16; lia).
  unfold zero_sample.
  f_equal.
  - apply (register16_pair _ _ MAG_OFF_X_LSB); [exact HX | exact H0 | |];
      (apply Hz; [unfold offset_registers; cbn [In]; auto 10 | assumption]).
  - apply (register16_pair _ _ MAG_OFF_Y_LSB); [exact HY | exact H0 | |];
      (apply Hz; [unfold offset_registers; cbn [In]; auto 10 | assumption]).
  - apply (register16_pair _ _ MAG_OFF_Z_LSB); [exact HZ | exact H0 | |];
      (apply Hz; [unfold offset_registers; cbn [In]; auto 10 | assumption]).
Qed.

End Restart.

(** X8.  With a well-formed register map, the offset that
    [calibrateEnd] stores survives a restart: a compass constructed
    again over the same sensor reads back exactly the offset computed.
    It then starts CALIBRATED unless that offset is zero on all three
    axes: an offset of (0, 0, 0) is read back as "never calibrated",
    although [calibrateEnd] itself had set CALIBRATED. *)
Theorem offset_survives_restart {hdr : Header} (s : State) :
  register_map_wf -> literal_wf ->
  let s1 := calibrateEnd s in
  let s2 := restart s1 in
  average (compass s2) = average (compass s1) /\
  (average (compass s1) = zero_sample -> isCalibrated s2 = 0) /\
  (average (compass s1) <> zero_sample -> isCalibrated s2 <> 0).
Proof.
  intros Hmap Hlit s1 s2.
  pose proof (restart_compass s1) as Hc. cbv zeta in Hc. fold s2 in Hc.
  pose proof (restart_after_calibrateEnd Hmap s) as Havg. cbv zeta in Havg.
  fold s1 in Havg.
  set (regs := store (to_u8 MAG_CTRL_REG1) 97
                 (store (to_u8 MAG_CTRL_REG2) 160 (registers (uBit s1)))) in *.
  set (avg := mkSample (register16 regs MAG_OFF_X_MSB) (register16 regs MAG_OFF_Y_MSB)
                       (register16 regs MAG_OFF_Z_MSB)) in *.
  change (register16 regs MAG_OFF_X_MSB) with (x avg) in Hc.
  change (register16 regs MAG_OFF_Y_MSB) with (y avg) in Hc.
  change (register16 regs MAG_OFF_Z_MSB) with (z avg) in Hc.
  unfold isCalibrated. rewrite Hc, <- Havg. clear Hc Havg.
  destruct avg as [ax ay az]. cbn [x y z].
  destruct (Z.eqb_spec ax 0) as [Ex | Ex];
    [destruct (Z.eqb_spec ay 0) as [Ey | Ey];
     [destruct (Z.eqb_spec az 0) as [Ez | Ez] |] |];
    cbn [andb average status clear_flag set_status set_average fresh].
  - split; [reflexivity |]. split.
    + intros _. apply clear_reads_clear.
    + intros H. exfalso. apply H. unfold zero_sample. congruence.
  - split; [reflexivity |]. split; [| intros _; exact Hlit].
    unfold zero_sample. intros H. injection H as _ _ H. contradiction.
  - split; [reflexivity |]. split; [| intros _; exact Hlit].
    unfold zero_sample. intros H. injection H as _ H _. contradiction.
  - split; [reflexivity |]. split; [| intros _; exact Hlit].
    unfold zero_sample. intros H. injection H as H _ _. contradiction.
Qed.

Ltac map_facts :=
  unfold register_map_wf, offset_registers; cbn;
  repeat split; try (reflexivity || discriminate || lia);
  try (repeat constructor; cbn; intuition discriminate);
  try (intuition discriminate).

(** Extents from (-300, -3, 10) to (101, 0, 20) give the offset
    (-99, -1, 15), which a restart reads back; extents from (-5, 0, 0)
    to (5, 0, 0) give the offset zero, and the restarted compass is not
    calibrated. *)
Lemma offset_survives_restart_witness :
  let d := power_on (fun _ => 0) 5 in
  let s := mkState (mkCompass 27 14 0 (mkSample (-300) (-3) 10) (mkSample 101 0 20)
                              zero_sample zero_sample 2) d in
  let t := mkState (mkCompass 27 14 0 (mkSample (-5) 0 0) (mkSample 5 0 0)
                              zero_sample zero_sample 2) d in
  (average (compass (@restart mag3110 (@calibrateEnd mag3110 s))) = mkSample (-99) (-1) 15 /\
   @isCalibrated mag3110 (@restart mag3110 (@calibrateEnd mag3110 s)) <> 0) /\
  (@isCalibrated mag3110 (@calibrateEnd mag3110 t) <> 0 /\
   @isCalibrated mag3110 (@restart mag3110 (@calibrateEnd mag3110 t)) = 0).
Proof.
  intros d s t.
  assert (Hmap : @register_map_wf mag3110) by map_facts.
  assert (Hlit : @literal_wf mag3110) by header_facts.
  destruct (@offset_survives_restart mag3110 s Hmap Hlit) as (Ha & _ & Hn).
  destruct (@offset_survives_restart mag3110 t Hmap Hlit) as (_ & Hz & _).
  split; split.
  - rewrite Ha. reflexivity.
  - apply Hn. vm_compute. discriminate.
  - vm_compute. discriminate.
  - apply Hz. vm_compute. reflexivity.
Defined.

(** X9.  [clearCalibration] wipes the stored calibration and nothing
    else: the offset held in the object and the extents stay as they
    are, no event is raised, and with a well-formed register map a
    restart afterwards reads back the offset (0, 0, 0) and starts
    uncalibrated. *)
Theorem clearCalibration_then_restart {hdr : Header} (s : State) :
  register_map_wf ->
  let s1 := clearCalibration s in
  let s2 := restart s1 in
  (average (compass s1) = average (compass s) /\
   minSample (compass s1) = minSample (compass s) /\
   maxSample (compass s1) = maxSample (compass s) /\
   eventStartTime (compass s1) = eventStartTime (compass s) /\
   events (uBit s1) = events (uBit s)) /\
  average (compass s2) = zero_sample /\
  isCalibrated s2 = 0.
Proof.
  intros Hmap s1 s2.
  split; [now repeat split |].
  pose proof (restart_compass s1) as Hc. cbv zeta in Hc. fold s2 in Hc.
  pose proof (restart_after_clearCalibration Hmap s) as Havg. cbv zeta in Havg.
  fold s1 in Havg.
  set (regs := store (to_u8 MAG_CTRL_REG1) 97
                 (store (to_u8 MAG_CTRL_REG2) 160 (registers (uBit s1)))) in *.
  injection Havg as Hx Hy Hz.
  unfold isCalibrated. rewrite Hc. cbn [x y z]. rewrite Hx, Hy, Hz.
  cbn [Z.eqb andb average status clear_flag set_status set_average fresh].
  split; [reflexivity | apply clear_reads_clear].
Qed.

Lemma clearCalibration_then_restart_witness :
  average (compass stored_compass) = mkSample 100 0 0 /\
  average (compass (@clearCalibration mag3110 stored_compass)) = mkSample 100 0 0 /\
  average (compass (@restart mag3110 (@clearCalibration mag3110 stored_compass)))
    = zero_sample /\
  @isCalibrated mag3110 (@restart mag3110 (@clearCalibration mag3110 stored_compass)) = 0.
Proof.
  assert (Hmap : @register_map_wf mag3110) by map_facts.
  destruct (@clearCalibration_then_restart mag3110 stored_compass Hmap)
    as ((Ha & _) & Hz & Hc).
  assert (H0 : average (compass stored_compass) = mkSample 100 0 0)
    by (vm_compute; reflexivity).
  split; [exact H0 |]. split; [rewrite Ha; exact H0 |].
  split; [exact Hz | exact Hc].
Defined.

(** ** Deadlines left behind and moved *)

(** X10.  Only [idleTick] clears the deadline.  When a calibration that
    was started by [calibrateAsync] is ended by hand, the deadline stays
    set; a later calibration started with [calibrateStart] is then ended
    by the first poll that finds data ready past that old deadline, with
    an offset taken from just the sample at the start and the one
    read. *)
Theorem stale_deadline {hdr : Header} (s : State) (p : Poll) :
  flags_wf ->
  eventStartTime (compass s) <> 0 ->
  poll_ready p = true ->
  to_u32 (eventStartTime (compass s) + MICROBIT_COMPASS_CALIBRATE_PERIOD)
    < poll_ticks p ->
  let s1 := calibrateEnd s in
  let s2 := calibrateStart s1 in
  let s3 := poll p s2 in
  let lo := sample_min (reading (poll_registers p)) (sample (compass s)) in
  let hi := sample_max (reading (poll_registers p)) (sample (compass s)) in
  eventStartTime (compass s1) = eventStartTime (compass s) /\
  isCalibrating s2 <> 0 /\
  isCalibrating s3 = 0 /\
  eventStartTime (compass s3) = 0 /\
  average (compass s3) =
    mkSample (midpoint (x hi) (x lo)) (midpoint (y hi) (y lo)) (midpoint (z hi) (z lo)).
Proof.
  intros Hwf HT Hr Ht. cbv zeta.
  set (s1 := calibrateEnd s).
  assert (Hg1 : isCalibrating s1 = 0) by now apply calibrateEnd_isCalibrating.
  assert (He1 : eventStartTime (compass s1) = eventStartTime (compass s))
    by apply calibrateEnd_eventStartTime.
  assert (Hs1 : sample (compass s1) = sample (compass s)) by reflexivity.
  set (s2 := calibrateStart s1).
  assert (Hg2 : isCalibrating s2 <> 0) by now apply calibrateStart_isCalibrating.
  assert (He2 : eventStartTime (compass s2) = eventStartTime (compass s)).
  { unfold s2. now rewrite calibrateStart_eventStartTime. }
  assert (Hs2 : minSample (compass s2) = sample (compass s) /\
                maxSample (compass s2) = sample (compass s)).
  { unfold s2. rewrite calibrateStart_fresh by exact Hg1. cbn [compass]. now split. }
  destruct Hs2 as (Hmin & Hmax).
  destruct (poll_fires _ p s2 Hg2 He2 HT Hr Ht) as (d & _ & Hp).
  split; [exact He1 |]. split; [exact Hg2 |].
  rewrite Hp.
  split; [now apply calibrateEnd_isCalibrating |].
  split; [reflexivity |].
  rewrite calibrateEnd_average.
  cbn [compass maxSample minSample set_eventStartTime set_maxSample set_minSample].
  now rewrite Hmin, Hmax.
Qed.

(** An asynchronous calibration from tick 5, ended by hand; a new one is
    started by hand and ended by the very next reading at tick 20000. *)
Lemma stale_deadline_witness :
  let s := @polls mag3110 [mkPoll 100 true (sensor 0 2 7)]
             (@calibrateAsync mag3110 blank_compass) in
  let s2 := @calibrateStart mag3110 (@calibrateEnd mag3110 s) in
  let s3 := @poll mag3110 (mkPoll 20000 true (sensor 0 2 9)) s2 in
  @isCalibrating mag3110 s2 <> 0 /\
  @isCalibrating mag3110 s3 = 0 /\
  average (compass s3) = mkSample 8 0 0.
Proof.
  intros s.
  assert (Hwf : @flags_wf mag3110) by header_facts.
  assert (HT : eventStartTime (compass s) <> 0) by (vm_compute; discriminate).
  assert (Hr : poll_ready (mkPoll 20000 true (sensor 0 2 9)) = true) by reflexivity.
  assert (Ht : to_u32 (eventStartTime (compass s)
                       + @MICROBIT_COMPASS_CALIBRATE_PERIOD mag3110)
               < poll_ticks (mkPoll 20000 true (sensor 0 2 9)))
    by (vm_compute; reflexivity).
  destruct (@stale_deadline mag3110 s _ Hwf HT Hr Ht) as (_ & Hg2 & Hg3 & _ & Ha).
  split; [exact Hg2 |]. split; [exact Hg3 |].
  rewrite Ha. vm_compute. reflexivity.
Defined.

(** X11.  [calibrateAsync] during a calibration does not start a new
    one: extents, status and events stay as they are and no second start
    event is raised.  It does move the deadline to the current tick, so
    polls that are quiet for the new deadline leave the compass
    calibrating. *)
Theorem calibrateAsync_while_calibrating {hdr : Header} (s : State) (ps : list Poll) :
  isCalibrating s <> 0 ->
  Forall (quiet (ticks (uBit s))) ps ->
  let s1 := calibrateAsync s in
  s1 = on_compass (set_eventStartTime (ticks (uBit s))) s /\
  minSample (compass s1) = minSample (compass s) /\
  maxSample (compass s1) = maxSample (compass s) /\
  status (compass s1) = status (compass s) /\
  events (uBit s1) = events (uBit s) /\
  eventStartTime (compass s1) = ticks (uBit s) /\
  isCalibrating (polls ps s1) <> 0.
Proof.
  intros Hc Hps s1.
  assert (Hs1 : s1 = on_compass (set_eventStartTime (ticks (uBit s))) s).
  { unfold s1, calibrateAsync. now apply calibrateStart_guard. }
  split; [exact Hs1 |].
  assert (Hc1 : isCalibrating s1 <> 0) by now rewrite Hs1.
  assert (He1 : eventStartTime (compass s1) = ticks (uBit s)) by now rewrite Hs1.
  rewrite Hs1 at 1 2 3 4.
  repeat (split; [reflexivity |]). split; [exact He1 |].
  destruct (polls_quiet _ ps s1 Hc1 He1 Hps) as (Hst & _).
  unfold isCalibrating. rewrite Hst. exact Hc1.
Qed.

(** A calibration started at tick 5 is started again at tick 9000: a
    reading at tick 15000, past the first deadline, does not end it. *)
Lemma calibrateAsync_while_calibrating_witness :
  let s := on_uBit (environment 9000 false (fun _ => 0))
             (@calibrateAsync mag3110 blank_compass) in
  let ps := [mkPoll 15000 true (sensor 0 2 7)] in
  eventStartTime (compass s) = 5 /\
  eventStartTime (compass (@calibrateAsync mag3110 s)) = 9000 /\
  events (uBit (@calibrateAsync mag3110 s)) = [(27, 2)] /\
  @isCalibrating mag3110 (@polls mag3110 ps (@calibrateAsync mag3110 s)) <> 0.
Proof.
  intros s ps.
  assert (Hc : @isCalibrating mag3110 s <> 0) by (vm_compute; discriminate).
  assert (Hps : Forall (@quiet mag3110 (ticks (uBit s))) ps).
  { apply Forall_cons; [| apply Forall_nil].
    right. right. vm_compute. intro. discriminate. }
  destruct (@calibrateAsync_while_calibrating mag3110 s ps Hc Hps)
    as (_ & _ & _ & _ & Hev & He & Hg).
  split; [vm_compute; reflexivity |].
  split; [rewrite He; reflexivity |].
  split; [rewrite Hev; vm_compute; reflexivity | exact Hg].
Defined.

(** X12.  [calibrateStart] on a compass that is not calibrating sets
    CALIBRATING and leaves CALIBRATED as it was, sets both extents to
    the current sample, raises one calibration-start event, and touches
    neither the offset, the deadline nor the bus. *)
Theorem calibrateStart_session {hdr : Header} (s : State) :
  flags_wf ->
  isCalibrating s = 0 ->
  let s' := calibrateStart s in
  isCalibrating s' <> 0 /\
  isCalibrated s' = isCalibrated s /\
  minSample (compass s') = sample (compass s) /\
  maxSample (compass s') = sample (compass s) /\
  sample (compass s') = sample (compass s) /\
  average (compass s') = average (compass s) /\
  eventStartTime (compass s') = eventStartTime (compass s) /\
  events (uBit s') =
    events (uBit s) ++ [(id (compass s), MICROBIT_COMPASS_EVT_CAL_START)] /\
  transfers (uBit s') = transfers (uBit s) /\
  registers (uBit s') = registers (uBit s).
Proof.
  intros Hwf Hc s'.
  split; [now apply calibrateStart_isCalibrating |].
  split; [now apply calibrateStart_isCalibrated |].
  unfold s'. rewrite calibrateStart_fresh by exact Hc. now repeat split.
Qed.

Lemma calibrateStart_session_witness :
  let s := on_uBit (environment 6 true (sensor 0 2 7)) stored_compass in
  let s' := @calibrateStart mag3110 (@idleTick mag3110 s) in
  @isCalibrating mag3110 s' <> 0 /\ @isCalibrated mag3110 s' <> 0 /\
  minSample (compass s') = mkSample 7 0 0 /\
  maxSample (compass s') = mkSample 7 0 0 /\
  events (uBit s') = [(27, 2)].
Proof.
  intros s.
  assert (Hwf : @flags_wf mag3110) by header_facts.
  assert (Hc : @isCalibrating mag3110 (@idleTick mag3110 s) = 0)
    by (vm_compute; reflexivity).
  destruct (@calibrateStart_session mag3110 (@idleTick mag3110 s) Hwf Hc)
    as (Hg & Hd & Hmin & Hmax & _ & _ & _ & Hev & _).
  split; [exact Hg |].
  split; [rewrite Hd; vm_compute; discriminate |].
  split; [rewrite Hmin; vm_compute; reflexivity |].
  split; [rewrite Hmax; vm_compute; reflexivity |].
  rewrite Hev. vm_compute. reflexivity.
Defined.

(** ** Heading *)

(** X13.  [heading] never changes the compass object, the sensor's
    registers or the bus log, in any calibration state and however often
    it is called.  On a compass that is neither calibrated nor
    calibrating every call raises the calibration-required event again:
    [n] calls in a row raise it [n] times and each returns the
    calibration-required code. *)
Theorem heading_raises_each_time {hdr : Header} (bearing_to_heading : Z -> Z -> Z)
    (s : State) (n : nat) :
  let s' := calls bearing_to_heading (repeat CallHeading n) s in
  (compass s' = compass s /\
   registers (uBit s') = registers (uBit s) /\
   pointer (uBit s') = pointer (uBit s) /\
   transfers (uBit s') = transfers (uBit s)) /\
  (isCalibrating s = 0 -> isCalibrated s = 0 ->
   events (uBit s') =
     events (uBit s) ++ repeat (id (compass s), MICROBIT_COMPASS_EVT_CAL_REQUIRED) n /\
   fst (heading bearing_to_heading s') = MICROBIT_COMPASS_CALIBRATE_REQUIRED).
Proof.
  cbv zeta. split.
  - revert s. induction n as [| n IH]; intros s; cbn [repeat calls call].
    + now repeat split.
    + destruct (IH (snd (heading bearing_to_heading s))) as (Hc & Hr & Hp & Ht).
      rewrite Hc, Hr, Hp, Ht. rewrite heading_compass.
      unfold heading.
      destruct (negb (isCalibrating s =? 0)); [now repeat split |].
      destruct (isCalibrated s =? 0); now repeat split.
  - revert s. induction n as [| n IH]; intros s Hg Hd; cbn [repeat calls call].
    + rewrite app_nil_r. split; [reflexivity |].
      unfold heading. now rewrite Hg, Hd.
    + assert (Hs : snd (heading bearing_to_heading s) =
                   on_uBit (MicroBitEvent (id (compass s))
                              MICROBIT_COMPASS_EVT_CAL_REQUIRED) s).
      { unfold heading. now rewrite Hg, Hd. }
      rewrite Hs.
      destruct (IH (on_uBit (MicroBitEvent (id (compass s))
                               MICROBIT_COMPASS_EVT_CAL_REQUIRED) s) Hg Hd)
        as (He & Hf).
      split; [| exact Hf].
      rewrite He. cbn [on_uBit uBit compass MicroBitEvent events].
      now rewrite <- app_assoc.
Qed.

(** Three calls on a blank compass raise three events; three calls on a
    calibrated compass that has read the sample (0, 10, 0) leave
    compass and bus as they are. *)
Lemma heading_raises_each_time_witness :
  let s' := @calls mag3110 no_bearing (repeat CallHeading 3) blank_compass in
  let t := centred_reading (sensor 0 4 10) in
  let t' := @calls mag3110 (@heading_degrees libm) (repeat CallHeading 3) t in
  (events (uBit s') = [(27, 1); (27, 1); (27, 1)] /\
   fst (@heading mag3110 no_bearing s') = -2) /\
  (@isCalibrated mag3110 t <> 0 /\
   compass t' = compass t /\ transfers (uBit t') = transfers (uBit t)).
Proof.
  intros s' t t'.
  assert (Hg : @isCalibrating mag3110 blank_compass = 0) by (vm_compute; reflexivity).
  assert (Hd : @isCalibrated mag3110 blank_compass = 0) by (vm_compute; reflexivity).
  destruct (@heading_raises_each_time mag3110 no_bearing blank_compass 3)
    as (_ & Hev).
  destruct (Hev Hg Hd) as (He & Hf).
  destruct (@heading_raises_each_time mag3110 (@heading_degrees libm) t 3)
    as ((Hc & _ & _ & Ht) & _).
  split.
  - split; [| exact Hf]. fold s' in He. rewrite He. vm_compute. reflexivity.
  - split; [vm_compute; discriminate |]. split; [exact Hc | exact Ht].
Defined.

(** ** Register reads *)

(** X14.  The register reads change nothing but the register pointer and
    the bus log.  [read16] returns a value within [int16_t] whose two's
    complement is the byte at [reg] followed by the byte after it;
    [read8] returns the byte at [reg] as a signed value from -128 to
    127; [whoAmI] returns the identity register as a value from 0 to
    255. *)
Theorem register_reads {hdr : Header} (reg : Z) (s : State) :
  let regs := registers (uBit s) in
  (in_s16 (fst (read16 reg s)) /\
   fst (read16 reg s) mod 65536 =
     256 * to_u8 (regs (to_u8 reg)) + to_u8 (regs (to_u8 (to_u8 reg + 1)))) /\
  (-128 <= fst (read8 reg s) <= 127 /\
   fst (read8 reg s) mod 256 = to_u8 (regs (to_u8 reg))) /\
  (0 <= fst (whoAmI s) <= 255 /\
   fst (whoAmI s) = to_u8 (regs (to_u8 MAG_WHOAMI))) /\
  (compass (snd (read16 reg s)) = compass s /\
   compass (snd (read8 reg s)) = compass s /\
   compass (snd (whoAmI s)) = compass s) /\
  (registers (uBit (snd (read16 reg s))) = regs /\
   registers (uBit (snd (read8 reg s))) = regs /\
   registers (uBit (snd (whoAmI s))) = regs) /\
  (events (uBit (snd (read16 reg s))) = events (uBit s) /\
   events (uBit (snd (read8 reg s))) = events (uBit s) /\
   events (uBit (snd (whoAmI s))) = events (uBit s)).
Proof.
  intros regs.
  split; [| split; [| split; [| now repeat split]]].
  - rewrite read16_value. split; [apply register16_range |].
    unfold register16. fold regs.
    set (lo := regs (to_u8 (to_u8 reg + 1))). set (hi := regs (to_u8 reg)).
    rewrite <- Z.lxor_lor by apply bytes_disjoint.
    rewrite <- Z.add_nocarry_lxor by apply bytes_disjoint.
    rewrite Z.shiftl_mul_pow2 by lia. change (2 ^ 8) with 256.
    pose proof (to_u8_range lo). pose proof (to_u8_range hi).
    unfold to_s16. cbv zeta.
    destruct (Z.ltb_spec ((to_u8 lo + to_u8 hi * 256) mod 65536) 32768);
      Z.div_mod_to_equations; lia.
  - rewrite read8_value. fold regs. split; [apply to_s8_range |].
    pose proof (to_u8_range (regs (to_u8 reg))).
    unfold to_s8. cbv zeta.
    destruct (Z.ltb_spec (to_u8 (regs (to_u8 reg)) mod 256) 128);
      Z.div_mod_to_equations; lia.
  - assert (Hw : fst (whoAmI s) = to_u8 (regs (to_u8 MAG_WHOAMI))).
    { unfold whoAmI, readCommand, i2c_read, i2c_write.
      cbn [fst snd pointer registers load_run nth uBit store_run List.length
           Z.of_nat map].
      now rewrite to_u8_idem. }
    rewrite Hw. split; [| reflexivity].
    pose proof (to_u8_range (regs (to_u8 MAG_WHOAMI))). lia.
Qed.

(** ** Calibrations without a deadline *)

Section NoDeadline.

Context {hdr : Header}.

Variable bearing_to_heading : Z -> Z -> Z.

Lemma idleTick_no_deadline (s : State) :
  eventStartTime (compass s) = 0 ->
  eventStartTime (compass (idleTick s)) = 0 /\
  status (compass (idleTick s)) = status (compass s) /\
  events (uBit (idleTick s)) = events (uBit s) /\
  registers (uBit (idleTick s)) = registers (uBit s).
Proof.
  intros He.
  destruct (int1 (uBit s)) eqn:Hr; [| now rewrite idleTick_not_ready].
  destruct (idleTick_shape s Hr) as (d & (Hreg & Hev & _) & ->). cbv zeta.
  assert (Hd : deadline_passed s = false).
  { unfold deadline_passed. now rewrite He. }
  rewrite Hd.
  destruct (negb (isCalibrating s =? 0)); now repeat split.
Qed.

Lemma call_no_deadline (c : Call) (s : State) :
  c <> CallCalibrateAsync ->
  eventStartTime (compass s) = 0 ->
  eventStartTime (compass (call bearing_to_heading c s)) = 0.
Proof.
  intros Hc He. destruct c; cbn [call]; try exact He.
  - now apply idleTick_no_deadline.
  - now rewrite calibrateStart_eventStartTime.
  - contradiction.
  - now rewrite heading_compass.
Qed.

End NoDeadline.

(** X15.  A program that never calls [calibrateAsync] never has a
    deadline: after the constructor and any run without that call the
    deadline is zero, and a poll then neither changes the status nor
    raises an event nor writes a register, however long a calibration
    has been going on. *)
Theorem no_deadline_without_async {hdr : Header} (bearing_to_heading : Z -> Z -> Z)
    (id0 addr : Z) (d : Device) (cs : list Call) :
  ~ In CallCalibrateAsync cs ->
  let s := calls bearing_to_heading cs (constructor id0 addr d) in
  eventStartTime (compass s) = 0 /\
  status (compass (idleTick s)) = status (compass s) /\
  events (uBit (idleTick s)) = events (uBit s) /\
  registers (uBit (idleTick s)) = registers (uBit s).
Proof.
  intros Hcs. cbv zeta.
  assert (H0 : eventStartTime (compass (constructor id0 addr d)) = 0).
  { pose proof (constructor_compass id0 addr d) as Hc. cbv zeta in Hc. rewrite Hc.
    now destruct (_ && _). }
  assert (He : eventStartTime
                 (compass (calls bearing_to_heading cs (constructor id0 addr d))) = 0).
  { revert H0. generalize (constructor id0 addr d). revert Hcs.
    induction cs as [| c cs IH]; intros Hcs s H0; cbn [calls]; [exact H0 |].
    apply IH.
    - intros Hin. apply Hcs. now right.
    - apply call_no_deadline; [| exact H0].
      intros E. apply Hcs. left. now symmetry. }
  split; [exact He |].
  destruct (idleTick_no_deadline _ He) as (_ & Hs & Hev & Hr).
  now repeat split.
Qed.

(** A calibration started by hand and polled at tick 4000000000. *)
Lemma no_deadline_without_async_witness :
  let cs := [CallCalibrateStart; Elapse (mkPoll 4000000000 true (sensor 0 2 7))] in
  let s := @calls mag3110 no_bearing cs
             (@constructor mag3110 27 14 (power_on (fun _ => 0) 5)) in
  @isCalibrating mag3110 s <> 0 /\
  eventStartTime (compass s) = 0 /\
  status (compass (@idleTick mag3110 s)) = status (compass s).
Proof.
  intros cs s.
  assert (Hcs : ~ In CallCalibrateAsync cs).
  { cbn. intros [H | [H | H]]; [discriminate | discriminate | exact H]. }
  destruct (@no_deadline_without_async mag3110 no_bearing 27 14
              (power_on (fun _ => 0) 5) cs Hcs) as (He & Hs & _).
  split; [vm_compute; discriminate |]. split; [exact He | exact Hs].
Defined.

(** ** The degrees returned by [heading] *)

Section Degrees.

Context {hdr : Header} {m : Math}.

(** The three steps of lines 140 to 144, with the literals of the source
    written out. *)
Lemma heading_degrees_steps (dy dx : Z) :
  heading_degrees dy dx =
  let b := float_of_double
             (PrimFloat.div
                (PrimFloat.mul (atan2 (double_of_int dy) (double_of_int dx)) 180%float)
                PI) in
  let b' := if PrimFloat.ltb b 0%float
            then float_of_double (PrimFloat.add b 360%float) else b in
  int_of_double (PrimFloat.sub 360%float b').
Proof. reflexivity. Qed.

(** What [heading_degrees] gives once the value of [atan2] is known. *)
Lemma heading_degrees_at (dy dx : Z) (a : float) :
  atan2 (double_of_int dy) (double_of_int dx) = a ->
  heading_degrees dy dx =
  let b := float_of_double (PrimFloat.div (PrimFloat.mul a 180%float) PI) in
  let b' := if PrimFloat.ltb b 0%float
            then float_of_double (PrimFloat.add b 360%float) else b in
  int_of_double (PrimFloat.sub 360%float b').
Proof. intros <-. apply heading_degrees_steps. Qed.

End Degrees.

(** C4.  On a compass that is CALIBRATED and not CALIBRATING, [heading]
    returns [(int)(360 - bearing)], where the bearing is
    [atan2(sample.y - offset.y, sample.x - offset.x) * 180 / PI] held in
    a [float], with 360 added when it is negative; the state is left as
    it is.  With [PI] the literal 3.14159265359 and [atan2] returning on
    the axes the doubles nearest to pi/2, pi and -pi/2, the offset
    (0, 0, 0) gives 270 for the sample (x = 0, y = 10), 180 for
    (x = -10, y = 0) and 90 for (x = 0, y = -10). *)
Theorem heading_bearing {hdr : Header} {m : Math} (s : State) :
  isCalibrating s = 0 -> isCalibrated s <> 0 ->
  let dy := y (sample (compass s)) - y (average (compass s)) in
  let dx := x (sample (compass s)) - x (average (compass s)) in
  let b := float_of_double
             (PrimFloat.div
                (PrimFloat.mul (atan2 (double_of_int dy) (double_of_int dx)) 180%float)
                PI) in
  let b' := if PrimFloat.ltb b 0%float
            then float_of_double (PrimFloat.add b 360%float) else b in
  heading heading_degrees s = (int_of_double (PrimFloat.sub 360%float b'), s) /\
  (PI = pi_literal -> average (compass s) = zero_sample ->
   (x (sample (compass s)) = 0 -> y (sample (compass s)) = 10 ->
    atan2 (double_of_int 10) (double_of_int 0) = half_pi ->
    fst (heading heading_degrees s) = 270) /\
   (x (sample (compass s)) = -10 -> y (sample (compass s)) = 0 ->
    atan2 (double_of_int 0) (double_of_int (-10)) = whole_pi ->
    fst (heading heading_degrees s) = 180) /\
   (x (sample (compass s)) = 0 -> y (sample (compass s)) = -10 ->
    atan2 (double_of_int (-10)) (double_of_int 0) = PrimFloat.opp half_pi ->
    fst (heading heading_degrees s) = 90)).
Proof.
  intros Hg Hd. cbv zeta.
  rewrite (heading_calibrated heading_degrees s Hg Hd).
  split; [now rewrite heading_degrees_steps |].
  intros HPI Havg. rewrite Havg. cbn [fst x y zero_sample].
  split; [| split]; intros Hx Hy Ha; rewrite Hx, Hy;
    match goal with
    | |- heading_degrees ?dy ?dx = _ =>
        let vy := eval vm_compute in dy in
        let vx := eval vm_compute in dx in
        change dy with vy; change dx with vx
    end;
    rewrite (heading_degrees_at _ _ _ Ha), HPI; vm_compute; reflexivity.
Qed.

(** The compass calibrated to the offset (0, 0, 0) reads (0, 10, 0),
    (-10, 0, 0) and (0, -10, 0). *)
Lemma heading_bearing_witness :
  let north := centred_reading (sensor 0 4 10) in
  let west := centred_reading (store 1 255 (sensor 0 2 246)) in
  let south := centred_reading (store 3 255 (sensor 0 4 246)) in
  (sample (compass north) = mkSample 0 10 0 /\
   sample (compass west) = mkSample (-10) 0 0 /\
   sample (compass south) = mkSample 0 (-10) 0) /\
  @heading mag3110 (@heading_degrees libm) north = (270, north) /\
  @heading mag3110 (@heading_degrees libm) west = (180, west) /\
  @heading mag3110 (@heading_degrees libm) south = (90, south).
Proof.
  intros north west south.
  assert (Hn : @isCalibrating mag3110 north = 0 /\ @isCalibrated mag3110 north <> 0)
    by (split; vm_compute; [reflexivity | discriminate]).
  assert (Hw : @isCalibrating mag3110 west = 0 /\ @isCalibrated mag3110 west <> 0)
    by (split; vm_compute; [reflexivity | discriminate]).
  assert (Hs : @isCalibrating mag3110 south = 0 /\ @isCalibrated mag3110 south <> 0)
    by (split; vm_compute; [reflexivity | discriminate]).
  destruct (@heading_bearing mag3110 libm north (proj1 Hn) (proj2 Hn)) as (En & Xn).
  destruct (@heading_bearing mag3110 libm west (proj1 Hw) (proj2 Hw)) as (Ew & Xw).
  destruct (@heading_bearing mag3110 libm south (proj1 Hs) (proj2 Hs)) as (Es & Xs).
  assert (An : average (compass north) = zero_sample) by (vm_compute; reflexivity).
  assert (Aw : average (compass west) = zero_sample) by (vm_compute; reflexivity).
  assert (As : average (compass south) = zero_sample) by (vm_compute; reflexivity).
  destruct (Xn eq_refl An) as (Yn & _ & _).
  destruct (Xw eq_refl Aw) as (_ & Yw & _).
  destruct (Xs eq_refl As) as (_ & _ & Ys).
  assert (Vn : fst (@heading mag3110 (@heading_degrees libm) north) = 270)
    by (apply Yn; vm_compute; reflexivity).
  assert (Vw : fst (@heading mag3110 (@heading_degrees libm) west) = 180)
    by (apply Yw; vm_compute; reflexivity).
  assert (Vs : fst (@heading mag3110 (@heading_degrees libm) south) = 90)
    by (apply Ys; vm_compute; reflexivity).
  split; [repeat split; vm_compute; reflexivity |].
  rewrite En in Vn |- *. rewrite Ew in Vw |- *. rewrite Es in Vs |- *.
  cbn [fst] in Vn, Vw, Vs.
  split; [rewrite Vn; reflexivity |].
  split; [rewrite Vw; reflexivity | rewrite Vs; reflexivity].
Defined.

(** C9.  The degrees [heading] returns on a calibrated compass are not
    confined to 0..359.  Whenever [sample.y - offset.y] is 0 and
    [sample.x - offset.x] is positive, the bearing is exactly 0 and
    [heading] returns 360: this needs only that [atan2 (0, dx)] is zero
    for positive [dx] and that zero divided by [PI] is zero.  For other
    inputs it returns 0: it does so for the differences (-1, 10000),
    with [atan2] correct to the last bit there and [PI] the literal
    3.14159265359.  So both 0 and 360 are returned. *)
Theorem heading_endpoints {hdr : Header} {m : Math} (s : State) :
  isCalibrating s = 0 -> isCalibrated s <> 0 ->
  let dy := y (sample (compass s)) - y (average (compass s)) in
  let dx := x (sample (compass s)) - x (average (compass s)) in
  (dy = 0 -> 0 < dx ->
   atan2 (double_of_int 0) (double_of_int dx) = 0%float ->
   PrimFloat.div 0%float PI = 0%float ->
   heading heading_degrees s = (360, s)) /\
  (dy = -1 -> dx = 10000 ->
   atan2 (double_of_int (-1)) (double_of_int 10000) = (-0x1.a36e2e9a4f662p-14)%float ->
   PI = pi_literal ->
   heading heading_degrees s = (0, s)).
Proof.
  intros Hg Hd. cbv zeta.
  rewrite (heading_calibrated heading_degrees s Hg Hd).
  split.
  - intros -> _ Ha H0. f_equal.
    rewrite (heading_degrees_at _ _ _ Ha). cbv zeta.
    change (PrimFloat.mul 0%float 180%float) with 0%float.
    rewrite H0. vm_compute. reflexivity.
  - intros -> -> Ha HPI. f_equal.
    rewrite (heading_degrees_at _ _ _ Ha), HPI. vm_compute. reflexivity.
Qed.

(** The compass calibrated to the offset (0, 0, 0) reads (5, 0, 0), due
    along the positive X axis, and (10000, -1, 0), just below it. *)
Lemma heading_endpoints_witness :
  let along := centred_reading (sensor 0 2 5) in
  let below := centred_reading (store 1 39 (store 2 16 (store 3 255 (sensor 0 4 255)))) in
  (sample (compass along) = mkSample 5 0 0 /\
   sample (compass below) = mkSample 10000 (-1) 0) /\
  @heading mag3110 (@heading_degrees libm) along = (360, along) /\
  @heading mag3110 (@heading_degrees libm) below = (0, below).
Proof.
  intros along below.
  assert (Ha : @isCalibrating mag3110 along = 0 /\ @isCalibrated mag3110 along <> 0)
    by (split; vm_compute; [reflexivity | discriminate]).
  assert (Hb : @isCalibrating mag3110 below = 0 /\ @isCalibrated mag3110 below <> 0)
    by (split; vm_compute; [reflexivity | discriminate]).
  destruct (@heading_endpoints mag3110 libm along (proj1 Ha) (proj2 Ha)) as (E360 & _).
  destruct (@heading_endpoints mag3110 libm below (proj1 Hb) (proj2 Hb)) as (_ & E0).
  split; [split; vm_compute; reflexivity |].
  split.
  - apply E360; vm_compute; reflexivity.
  - apply E0; vm_compute; reflexivity.
Defined.
